(** * KISS-ICP Python layer: configuration loading and the pipeline wrapper

    Shallow embedding of [python/kiss_icp/config/parser.py] and
    [python/kiss_icp/kiss_icp.py].

    Python [float] is IEEE-754 binary64 and is modelled by Rocq's primitive
    [float]; Python [int] is [Z]; [str] is [string]; [Optional[T]] is
    [option T].  Code that prints, exits the interpreter or raises is written
    in a small output/outcome monad [Py]. *)

From Stdlib Require Import ZArith List Ascii String Bool Floats Lia.
Import ListNotations.

Local Open Scope string_scope.
Set Warnings "-register-all,-inexact-float".

(** ** Outcomes of running Python code *)

Inductive exn : Type :=
| TypeError
| ValidationError
| OSError
| YAMLError.

(** A call returns a value, leaves the interpreter through [sys.exit], or
    propagates an exception. *)
Inductive outcome (A : Type) : Type :=
| Returned (a : A)
| Exited (status : Z)
| Raised (e : exn).

(** A call into a library that cannot leave the interpreter: a value or an
    exception. *)
Inductive result (A : Type) : Type :=
| Success (a : A)
| Failure (e : exn).

Arguments Success {A} a.
Arguments Failure {A} e.
Arguments Returned {A} a.
Arguments Exited {A} status.
Arguments Raised {A} e.

(** [Py A]: a computation that appends lines to standard output. *)
Definition Py (A : Type) : Type := list string -> outcome A * list string.

Definition ret {A} (a : A) : Py A := fun out => (Returned a, out).

Definition bind {A B} (m : Py A) (k : A -> Py B) : Py B :=
  fun out =>
    match m out with
    | (Returned a, out') => k a out'
    | (Exited s, out') => (Exited s, out')
    | (Raised e, out') => (Raised e, out')
    end.

Definition print (line : string) : Py unit :=
  fun out => (Returned tt, (out ++ [line])%list).

Definition sys_exit {A} (status : Z) : Py A := fun out => (Exited status, out).

Definition raise {A} (e : exn) : Py A := fun out => (Raised e, out).

Definition lift {A} (r : result A) : Py A :=
  match r with
  | Success a => ret a
  | Failure e => raise e
  end.

Declare Scope py_scope.
Delimit Scope py_scope with py.
Notation "x <- m ;; k" := (bind m (fun x => k))
  (at level 61, m at next level, right associativity) : py_scope.
Notation "m ;;; k" := (bind m (fun _ => k))
  (at level 61, right associativity) : py_scope.

(** Running a computation from an empty standard output. *)
Definition run {A} (m : Py A) : outcome A * list string := m [].

(** ** Python objects as [yaml.safe_load] produces them *)

Inductive PyObj : Type :=
| PyNone
| PyBool (b : bool)
| PyInt (z : Z)
| PyFloat (f : float)
| PyStr (s : string)
| PyList (l : list PyObj)
| PyDict (kv : list (string * PyObj)).

(** Python truthiness, as used by [data or {}]. *)
Definition truthy (v : PyObj) : bool :=
  match v with
  | PyNone => false
  | PyBool b => b
  | PyInt z => negb (Z.eqb z 0)
  | PyFloat f => negb (PrimFloat.eqb f 0%float)
  | PyStr s => negb (String.eqb s "")
  | PyList l => match l with [] => false | _ => true end
  | PyDict kv => match kv with [] => false | _ => true end
  end.

Definition py_or (a b : PyObj) : PyObj := if truthy a then a else b.

(** ** The native module [kiss_icp_pybind]: the configuration struct *)

Module Pybind.

(** Modelled from the spec: the native struct [_KISSConfig] is declared in the
    binding, which is not part of the Python sources.  Its ten fields are the
    ones of the spec's Config (section 3) and the ones both Python converters
    assign; real-valued fields are C++ doubles and counters are integers. *)
Record _KISSConfig : Type := Build_KISSConfig {
  voxel_size : float;
  max_range : float;
  min_range : float;
  max_points_per_voxel : Z;
  min_motion_th : float;
  initial_threshold : float;
  max_num_iterations : Z;
  convergence_criterion : float;
  max_num_threads : Z;
  deskew : bool
}.

(** Attribute assignment [c.field = v] on the struct. *)
Definition set_voxel_size (v : float) (c : _KISSConfig) : _KISSConfig :=
  Build_KISSConfig v (max_range c) (min_range c) (max_points_per_voxel c)
    (min_motion_th c) (initial_threshold c) (max_num_iterations c)
    (convergence_criterion c) (max_num_threads c) (deskew c).
Definition set_max_range (v : float) (c : _KISSConfig) : _KISSConfig :=
  Build_KISSConfig (voxel_size c) v (min_range c) (max_points_per_voxel c)
    (min_motion_th c) (initial_threshold c) (max_num_iterations c)
    (convergence_criterion c) (max_num_threads c) (deskew c).
Definition set_min_range (v : float) (c : _KISSConfig) : _KISSConfig :=
  Build_KISSConfig (voxel_size c) (max_range c) v (max_points_per_voxel c)
    (min_motion_th c) (initial_threshold c) (max_num_iterations c)
    (convergence_criterion c) (max_num_threads c) (deskew c).
Definition set_max_points_per_voxel (v : Z) (c : _KISSConfig) : _KISSConfig :=
  Build_KISSConfig (voxel_size c) (max_range c) (min_range c) v
    (min_motion_th c) (initial_threshold c) (max_num_iterations c)
    (convergence_criterion c) (max_num_threads c) (deskew c).
Definition set_min_motion_th (v : float) (c : _KISSConfig) : _KISSConfig :=
  Build_KISSConfig (voxel_size c) (max_range c) (min_range c)
    (max_points_per_voxel c) v (initial_threshold c) (max_num_iterations c)
    (convergence_criterion c) (max_num_threads c) (deskew c).
Definition set_initial_threshold (v : float) (c : _KISSConfig) : _KISSConfig :=
  Build_KISSConfig (voxel_size c) (max_range c) (min_range c)
    (max_points_per_voxel c) (min_motion_th c) v (max_num_iterations c)
    (convergence_criterion c) (max_num_threads c) (deskew c).
Definition set_max_num_iterations (v : Z) (c : _KISSConfig) : _KISSConfig :=
  Build_KISSConfig (voxel_size c) (max_range c) (min_range c)
    (max_points_per_voxel c) (min_motion_th c) (initial_threshold c) v
    (convergence_criterion c) (max_num_threads c) (deskew c).
Definition set_convergence_criterion (v : float) (c : _KISSConfig) : _KISSConfig :=
  Build_KISSConfig (voxel_size c) (max_range c) (min_range c)
    (max_points_per_voxel c) (min_motion_th c) (initial_threshold c)
    (max_num_iterations c) v (max_num_threads c) (deskew c).
Definition set_max_num_threads (v : Z) (c : _KISSConfig) : _KISSConfig :=
  Build_KISSConfig (voxel_size c) (max_range c) (min_range c)
    (max_points_per_voxel c) (min_motion_th c) (initial_threshold c)
    (max_num_iterations c) (convergence_criterion c) v (deskew c).
Definition set_deskew (v : bool) (c : _KISSConfig) : _KISSConfig :=
  Build_KISSConfig (voxel_size c) (max_range c) (min_range c)
    (max_points_per_voxel c) (min_motion_th c) (initial_threshold c)
    (max_num_iterations c) (convergence_criterion c) (max_num_threads c) v.

(** Storing a Python object into a double field: a float is stored, [None] is
    refused with a [TypeError]. *)
Definition as_double (v : option float) : result float :=
  match v with
  | Some f => Success f
  | None => Failure TypeError
  end.

End Pybind.

(** ** [kiss_icp.config.config]: the nested (pydantic) sub-configurations *)

Module Config.

(** Modelled from the spec: the four sub-configuration classes live in
    [kiss_icp/config/config.py], which is not part of the sources at hand.
    Their fields are exactly the attributes that [parser.py] reads and
    writes; [voxel_size] is optional because [load_config] tests it against
    [None]. *)
Record DataConfig : Type := Build_DataConfig {
  deskew : bool;
  max_range : float;
  min_range : float
}.

Record MappingConfig : Type := Build_MappingConfig {
  voxel_size : option float;
  max_points_per_voxel : Z
}.

Record RegistrationConfig : Type := Build_RegistrationConfig {
  max_num_iterations : Z;
  convergence_criterion : float;
  max_num_threads : Z
}.

Record AdaptiveThresholdConfig : Type := Build_AdaptiveThresholdConfig {
  initial_threshold : float;
  min_motion_th : float
}.

End Config.

(** ** [kiss_icp/config/parser.py] *)

Module Parser.

Record KISSConfig : Type := Build_KISSConfig {
  out_dir : string;
  data : Config.DataConfig;
  registration : Config.RegistrationConfig;
  mapping : Config.MappingConfig;
  adaptive_threshold : Config.AdaptiveThresholdConfig
}.

(** [config.data.min_range = v] *)
Definition set_data_min_range (v : float) (c : KISSConfig) : KISSConfig :=
  Build_KISSConfig (out_dir c)
    (Config.Build_DataConfig (Config.deskew (data c)) (Config.max_range (data c)) v)
    (registration c) (mapping c) (adaptive_threshold c).

(** [config.mapping.voxel_size = v] *)
Definition set_mapping_voxel_size (v : option float) (c : KISSConfig) : KISSConfig :=
  Build_KISSConfig (out_dir c) (data c) (registration c)
    (Config.Build_MappingConfig v (Config.max_points_per_voxel (mapping c)))
    (adaptive_threshold c).

(** What the interpreter finds outside the program: whether PyYAML can be
    imported (and then its [safe_load]), and the files that can be opened. *)
Record YamlModule : Type := Build_YamlModule {
  safe_load : string -> result PyObj
}.

Record World : Type := Build_World {
  import_yaml : option YamlModule;
  read_file : string -> option string
}.

Definition dquote : string := String "034"%char EmptyString.

Definition yaml_missing_message : string :=
  "Custom configuration file specified but PyYAML is not installed on your system,"
  ++ " run `pip install " ++ dquote ++ "kiss-icp[all]" ++ dquote
  ++ "`. You can also modify the config.py if your "
  ++ "system does not support PyYaml ".

Definition min_range_warning : string :=
  "[WARNING] max_range is smaller than min_range, setting min_range to 0.0".

Local Open Scope py_scope.

Definition open_and_read (w : World) (config_file : string) : Py string :=
  match read_file w config_file with
  | Some text => ret text
  | None => raise OSError
  end.

Definition _yaml_source (w : World) (config_file : option string) : Py PyObj :=
  data <- match config_file with
          | Some path =>
              yaml <- match import_yaml w with
                      | Some y => ret y
                      | None => print yaml_missing_message ;;; sys_exit 1
                      end ;;
              text <- open_and_read w path ;;
              lift (safe_load yaml text)
          | None => ret PyNone
          end ;;
  ret (py_or data (PyDict [])).

(** The pydantic side of the constructor call [KISSConfig] on unpacked
    keyword arguments.  [KISSConfig] is a settings class with the
    environment prefix [kiss_icp_]: what it builds from a set of keyword
    arguments - the empty set included - depends on the environment
    variables in force, and it may reject what it finds.  That construction
    is the parameter [validate].  The defaults the sub-configuration classes
    declare belong to [config.py] and are parameters too. *)
Class Pydantic : Type := Build_Pydantic {
  DataConfig_default : Config.DataConfig;
  RegistrationConfig_default : Config.RegistrationConfig;
  MappingConfig_default : Config.MappingConfig;
  AdaptiveThresholdConfig_default : Config.AdaptiveThresholdConfig;
  validate : list (string * PyObj) -> result KISSConfig
}.

Section WithPydantic.
Context {P : Pydantic}.

(** The all-default configuration: every field at the default its class
    declares. *)
Definition KISSConfig_default : KISSConfig :=
  Build_KISSConfig "results" DataConfig_default RegistrationConfig_default
    MappingConfig_default AdaptiveThresholdConfig_default.

(** The constructor call on [kwargs] unpacked as keywords: unpacking needs
    a mapping, and the settings class then builds the configuration from
    the keywords and the environment. *)
Definition KISSConfig_init (kwargs : PyObj) : result KISSConfig :=
  match kwargs with
  | PyDict kv => validate kv
  | _ => Failure TypeError
  end.

Definition load_config (w : World) (config_file : option string) : Py KISSConfig :=
  kwargs <- _yaml_source w config_file ;;
  config <- lift (KISSConfig_init kwargs) ;;
  config <- (if PrimFloat.ltb (Config.max_range (data config))
                              (Config.min_range (data config))
             then print min_range_warning ;;;
                  ret (set_data_min_range 0.0%float config)
             else ret config) ;;
  config <- (match Config.voxel_size (mapping config) with
             | None =>
                 ret (set_mapping_voxel_size
                        (Some (Config.max_range (data config) / 100.0)%float)
                        config)
             | Some _ => ret config
             end) ;;
  ret config.

(** The first statement of [load_config] on its own: the configuration as
    constructed from the file (or from nothing), before the two adjustments. *)
Definition construct (w : World) (config_file : option string) : Py KISSConfig :=
  kwargs <- _yaml_source w config_file ;;
  lift (KISSConfig_init kwargs).

End WithPydantic.

(** The two adjustments of [load_config] as functions of the constructed
    configuration, and the lines they print. *)
Definition max_below_min (c : KISSConfig) : bool :=
  PrimFloat.ltb (Config.max_range (data c)) (Config.min_range (data c)).

Definition adjust_min_range (c : KISSConfig) : KISSConfig :=
  if max_below_min c then set_data_min_range 0.0%float c else c.

Definition adjust_voxel_size (c : KISSConfig) : KISSConfig :=
  match Config.voxel_size (mapping c) with
  | None =>
      set_mapping_voxel_size
        (Some (Config.max_range (data c) / 100.0)%float) c
  | Some _ => c
  end.

Definition warnings (c : KISSConfig) : list string :=
  if max_below_min c then [min_range_warning] else [].

(** The invariant [max_range >= min_range]. *)
Definition ranges_ordered (c : KISSConfig) : bool :=
  PrimFloat.leb (Config.min_range (data c)) (Config.max_range (data c)).

(** [to_kiss_config]: a fresh native struct, then ten assignments in source
    order.  The freshly built struct's contents come from the binding and are
    a parameter. *)
Definition to_kiss_config (fresh : Pybind._KISSConfig) (config : KISSConfig)
  : result Pybind._KISSConfig :=
  let cpp_config := fresh in
  let cpp_config := Pybind.set_max_range (Config.max_range (data config)) cpp_config in
  let cpp_config := Pybind.set_min_range (Config.min_range (data config)) cpp_config in
  let cpp_config := Pybind.set_deskew (Config.deskew (data config)) cpp_config in
  match Pybind.as_double (Config.voxel_size (mapping config)) with
  | Success v =>
      let cpp_config := Pybind.set_voxel_size v cpp_config in
      let cpp_config :=
        Pybind.set_max_points_per_voxel
          (Config.max_points_per_voxel (mapping config)) cpp_config in
      let cpp_config :=
        Pybind.set_min_motion_th
          (Config.min_motion_th (adaptive_threshold config)) cpp_config in
      let cpp_config :=
        Pybind.set_initial_threshold
          (Config.initial_threshold (adaptive_threshold config)) cpp_config in
      let cpp_config :=
        Pybind.set_max_num_iterations
          (Config.max_num_iterations (registration config)) cpp_config in
      let cpp_config :=
        Pybind.set_convergence_criterion
          (Config.convergence_criterion (registration config)) cpp_config in
      let cpp_config :=
        Pybind.set_max_num_threads
          (Config.max_num_threads (registration config)) cpp_config in
      Success cpp_config
  | Failure e => Failure e
  end.

End Parser.

(** ** Points, poses and numpy arrays *)

Definition Point3D : Type := (float * float * float)%type.

(** [_Vector3dVector]: the native sequence of double-precision points. *)
Definition Vector3dVector : Type := list Point3D.

(** A 4x4 homogeneous matrix, row by row. *)
Definition Matrix4d : Type := list (list float).

(** Element types of the arrays a caller may pass: the floating-point
    ones and the integer ones (booleans among them). *)
Inductive float_dtype : Type :=
| float64
| float32
| float16.

Inductive int_dtype : Type :=
| int64
| int32
| uint8
| bool_.

Inductive dtype : Type :=
| Floating (d : float_dtype)
| Integral (d : int_dtype).

(** An [(N, 3)] array.  Floating-point elements of any width are carried by
    the binary64 value they denote (every float16 and float32 value is a
    binary64 value); integer and boolean elements by their integer value. *)
Inductive ndarray : Type :=
| FloatArray (d : float_dtype) (rows : list (float * float * float))
| IntArray (d : int_dtype) (rows : list (Z * Z * Z)).

Definition dtype_of (a : ndarray) : dtype :=
  match a with
  | FloatArray d _ => Floating d
  | IntArray d _ => Integral d
  end.

Definition rows_count (a : ndarray) : nat :=
  match a with
  | FloatArray _ rows => List.length rows
  | IntArray _ rows => List.length rows
  end.

(** Integer to binary64, rounding to nearest even. *)
Definition float_of_Z (z : Z) : float :=
  SF2Prim (binary_normalize prec emax z 0 false).

(** [np.asarray(a, dtype=np.float64)] *)
Definition asarray_float64 (a : ndarray) : ndarray :=
  match a with
  | FloatArray _ rows => FloatArray float64 rows
  | IntArray _ rows =>
      FloatArray float64
        (map (fun '(x, y, z) => (float_of_Z x, float_of_Z y, float_of_Z z)) rows)
  end.

(** [np.asarray] of a native point sequence. *)
Definition asarray_points (v : Vector3dVector) : ndarray := FloatArray float64 v.

(** ** The native module [kiss_icp_pybind]: the pipeline object *)

Module Native.

(** The interface [kiss_icp.py] calls.  A native object is mutated by its
    methods, so each mutating method returns the object's next state.
    [_Vector3dVector] is the binding's constructor of a point sequence from
    an array; what it makes of an array depends on the array it is given. *)
Class Interface : Type := Build_Interface {
  _KissICP : Type;
  _Vector3dVector : ndarray -> Vector3dVector;
  _KISSConfig_new : Pybind._KISSConfig;
  _KissICP_new : Pybind._KISSConfig -> _KissICP;
  _register_frame :
    _KissICP -> Vector3dVector -> list float ->
    _KissICP * (Vector3dVector * Vector3dVector);
  _last_pose : _KissICP -> Matrix4d;
  _local_map : _KissICP -> Vector3dVector;
  _reset : _KissICP -> _KissICP;
  _voxel_down_sample : Vector3dVector -> float -> Vector3dVector
}.

End Native.

(** ** [kiss_icp/kiss_icp.py] *)

Module KissIcp.

(** The flat dataclass. *)
Record KISSConfig : Type := Build_KISSConfig {
  voxel_size : float;
  max_range : float;
  min_range : float;
  max_points_per_voxel : Z;
  min_motion_th : float;
  initial_threshold : float;
  max_num_iterations : Z;
  convergence_criterion : float;
  max_num_threads : Z;
  deskew : bool
}.

(** [KISSConfig()] with the dataclass defaults. *)
Definition KISSConfig_default : KISSConfig :=
  Build_KISSConfig 1.0%float 100.0%float 0.0%float 20 0.1%float 2.0%float 500
    0.0001%float 0 true.

Section WithNative.
Context {N : Native.Interface}.

Definition _to_cpp (self : KISSConfig) : Pybind._KISSConfig :=
  let config := Native._KISSConfig_new in
  let config := Pybind.set_voxel_size (voxel_size self) config in
  let config := Pybind.set_max_range (max_range self) config in
  let config := Pybind.set_min_range (min_range self) config in
  let config := Pybind.set_max_points_per_voxel (max_points_per_voxel self) config in
  let config := Pybind.set_min_motion_th (min_motion_th self) config in
  let config := Pybind.set_initial_threshold (initial_threshold self) config in
  let config := Pybind.set_max_num_iterations (max_num_iterations self) config in
  let config := Pybind.set_convergence_criterion (convergence_criterion self) config in
  let config := Pybind.set_max_num_threads (max_num_threads self) config in
  let config := Pybind.set_deskew (deskew self) config in
  config.

Definition _to_cpp_points (frame : ndarray) : Vector3dVector :=
  let points := asarray_float64 frame in
  Native._Vector3dVector points.

(** An instance of class [KissICP]: its two attributes. *)
Record KissICP : Type := Build_KissICP {
  config : KISSConfig;
  _pipeline : Native._KissICP
}.

(** [KissICP.__init__] *)
Definition __init__ (config : option KISSConfig) : KissICP :=
  let config := match config with Some c => c | None => KISSConfig_default end in
  Build_KissICP config (Native._KissICP_new (_to_cpp config)).

Definition register_frame (self : KissICP) (frame : ndarray)
    (timestamps : option (list float)) : KissICP * (ndarray * ndarray) :=
  let points := _to_cpp_points frame in
  let ts_list := match timestamps with Some ts => ts | None => [] end in
  let '(pipeline', (frame_out, source_out)) :=
    Native._register_frame (_pipeline self) points ts_list in
  (Build_KissICP (config self) pipeline',
   (asarray_points frame_out, asarray_points source_out)).

Definition last_pose (self : KissICP) : Matrix4d :=
  Native._last_pose (_pipeline self).

Definition local_map (self : KissICP) : ndarray :=
  asarray_points (Native._local_map (_pipeline self)).

Definition reset (self : KissICP) : KissICP :=
  Build_KissICP (config self) (Native._reset (_pipeline self)).

Definition voxel_down_sample (frame : ndarray) (voxel_size : float) : ndarray :=
  asarray_points (Native._voxel_down_sample (_to_cpp_points frame) voxel_size).

(** The objects a program can get from [start] by calling the two mutating
    methods of the class. *)
Inductive reachable (start : KissICP) : KissICP -> Prop :=
| reach_start : reachable start start
| reach_register_frame (k : KissICP) (frame : ndarray)
    (timestamps : option (list float)) :
    reachable start k ->
    reachable start (fst (register_frame k frame timestamps))
| reach_reset (k : KissICP) :
    reachable start k -> reachable start (reset k).

End WithNative.

End KissIcp.

(** ** The native odometry pipeline, from its specification *)

Module Core.

Local Open Scope float_scope.

(** The native pipeline ([_KissICP], [_voxel_down_sample]) is compiled code
    that the Python sources only call.  Everything in this module is written
    from the specification of that pipeline (its sections 2 to 4.6), over
    the parts the specification leaves open. *)

(** *** Rigid transforms on 4x4 matrices *)

(** Modelled from the spec: the identity pose, as the 4x4 homogeneous matrix
    that [last_pose] reports before any frame (sections 4.6 and 6). *)
Definition identity4 : Matrix4d :=
  [[1; 0; 0; 0]; [0; 1; 0; 0]; [0; 0; 1; 0]; [0; 0; 0; 1]].

Definition entry (m : Matrix4d) (i j : nat) : float := nth j (nth i m []) 0.

Definition idx4 : list nat := [0; 1; 2; 3]%nat.

(** Modelled from the spec: composition of poses, the product of their
    homogeneous matrices. *)
Definition mat_mul (a b : Matrix4d) : Matrix4d :=
  map (fun i =>
         map (fun j =>
                entry a i 0 * entry b 0 j + entry a i 1 * entry b 1 j
                + entry a i 2 * entry b 2 j + entry a i 3 * entry b 3 j)
             idx4)
      idx4.

(** Modelled from the spec: inverse of a rigid transform - rotation
    transposed, translation rotated back and negated. *)
Definition rigid_inverse (m : Matrix4d) : Matrix4d :=
  let r i j := entry m j i in
  let t i := - (r i 0%nat * entry m 0 3 + r i 1%nat * entry m 1 3
                + r i 2%nat * entry m 2 3) in
  [[r 0%nat 0%nat; r 0%nat 1%nat; r 0%nat 2%nat; t 0%nat];
   [r 1%nat 0%nat; r 1%nat 1%nat; r 1%nat 2%nat; t 1%nat];
   [r 2%nat 0%nat; r 2%nat 1%nat; r 2%nat 2%nat; t 2%nat];
   [0; 0; 0; 1]].

(** Modelled from the spec: a pose applied to a point. *)
Definition transform (m : Matrix4d) (p : Point3D) : Point3D :=
  let '(x, y, z) := p in
  (entry m 0 0 * x + entry m 0 1 * y + entry m 0 2 * z + entry m 0 3,
   entry m 1 0 * x + entry m 1 1 * y + entry m 1 2 * z + entry m 1 3,
   entry m 2 0 * x + entry m 2 1 * y + entry m 2 2 * z + entry m 2 3).

Definition translation (m : Matrix4d) : Point3D :=
  (entry m 0 3, entry m 1 3, entry m 2 3).

(** Modelled from the spec: Euclidean distance between two points. *)
Definition distance (p q : Point3D) : float :=
  let '(px, py, pz) := p in
  let '(qx, qy, qz) := q in
  sqrt ((px - qx) * (px - qx) + (py - qy) * (py - qy) + (pz - qz) * (pz - qz)).

(** *** Voxel keys (spec, section 3) *)

Definition VoxelKey : Type := (Z * Z * Z)%type.

(** Largest integer not above a finite float (0 for infinities and NaN). *)
Definition floor_to_Z (f : float) : Z :=
  match Prim2SF f with
  | S754_finite s m e => Z.shiftl (if s then Zneg m else Zpos m) e
  | _ => 0%Z
  end.

(** Modelled from the spec: VoxelKey = floor(point / voxel_size),
    componentwise; the native implementation is not part of the sources. *)
Definition voxel_key (voxel_size : float) (p : Point3D) : VoxelKey :=
  let '(x, y, z) := p in
  (floor_to_Z (x / voxel_size), floor_to_Z (y / voxel_size),
   floor_to_Z (z / voxel_size)).

Definition key_eqb (a b : VoxelKey) : bool :=
  let '(ax, ay, az) := a in
  let '(bx, b_y, bz) := b in
  (Z.eqb ax bx && Z.eqb ay b_y && Z.eqb az bz)%bool.

Definition key_mem (k : VoxelKey) (seen : list VoxelKey) : bool :=
  existsb (key_eqb k) seen.

(** *** VoxelGridDownsampler (spec, section 4.2) *)

Fixpoint downsample_from (voxel_size : float) (seen : list VoxelKey)
    (points : Vector3dVector) : Vector3dVector :=
  match points with
  | [] => []
  | p :: rest =>
      let k := voxel_key voxel_size p in
      if key_mem k seen then downsample_from voxel_size seen rest
      else p :: downsample_from voxel_size (k :: seen) rest
  end.

(** Modelled from the spec: one representative per occupied voxel; of the
    policies the spec allows, the first point seen in a voxel is kept. *)
Definition voxel_down_sample (points : Vector3dVector) (voxel_size : float)
  : Vector3dVector :=
  downsample_from voxel_size [] points.

(** *** VoxelHashMap (spec, section 4.3) *)

Definition VoxelCell : Type := list Point3D.
Definition VoxelHashMap : Type := list (VoxelKey * VoxelCell).

Definition cell_add (capacity : Z) (cell : VoxelCell) (p : Point3D) : VoxelCell :=
  if (Z.of_nat (List.length cell) <? capacity)%Z then (cell ++ [p])%list else cell.

Fixpoint insert_point (capacity : Z) (k : VoxelKey) (p : Point3D)
    (m : VoxelHashMap) : VoxelHashMap :=
  match m with
  | [] => [(k, cell_add capacity [] p)]
  | (k', cell) :: rest =>
      if key_eqb k k' then (k', cell_add capacity cell p) :: rest
      else (k', cell) :: insert_point capacity k p rest
  end.

(** Modelled from the spec: [insert(points)] - for each point, compute its
    key, create the cell if absent, append while capacity remains. *)
Definition insert (voxel_size : float) (capacity : Z) (points : Vector3dVector)
    (m : VoxelHashMap) : VoxelHashMap :=
  fold_left (fun acc p => insert_point capacity (voxel_key voxel_size p) p acc)
            points m.

Definition lookup_cell (m : VoxelHashMap) (k : VoxelKey) : VoxelCell :=
  match find (fun kc => key_eqb k (fst kc)) m with
  | Some (_, cell) => cell
  | None => []
  end.

Definition offsets : list Z := [-1; 0; 1]%Z.

(** Modelled from the spec: the 3x3x3 block of cells centred on a key. *)
Definition neighbours (k : VoxelKey) : list VoxelKey :=
  let '(i, j, l) := k in
  flat_map (fun di =>
    flat_map (fun dj =>
      map (fun dl => (i + di, j + dj, l + dl)%Z) offsets) offsets) offsets.

(** Modelled from the spec: strict minimum of the distance - an equidistant
    later candidate does not replace an earlier one. *)
Fixpoint closest (q : Point3D) (best : option Point3D)
    (candidates : list Point3D) : option Point3D :=
  match candidates with
  | [] => best
  | c :: rest =>
      match best with
      | None => closest q (Some c) rest
      | Some b =>
          if distance q c <? distance q b then closest q (Some c) rest
          else closest q best rest
      end
  end.

Definition nearest (voxel_size : float) (m : VoxelHashMap) (max_radius : float)
    (q : Point3D) : option Point3D :=
  let candidates :=
    flat_map (lookup_cell m) (neighbours (voxel_key voxel_size q)) in
  match closest q None candidates with
  | Some c => if distance q c <=? max_radius then Some c else None
  | None => None
  end.

(** Modelled from the spec: [get_correspondences] - the pairs (source point,
    map point) of the queries that found a map point within [max_radius];
    each query is a source point together with its transformed position. *)
Fixpoint get_correspondences (voxel_size : float) (m : VoxelHashMap)
    (max_radius : float) (queries : list (Point3D * Point3D))
  : list (Point3D * Point3D) :=
  match queries with
  | [] => []
  | (src, q) :: rest =>
      match nearest voxel_size m max_radius q with
      | Some c => (src, c) :: get_correspondences voxel_size m max_radius rest
      | None => get_correspondences voxel_size m max_radius rest
      end
  end.

(** Modelled from the spec: a cell stays unless its representative (its
    first point) is farther than [max_range] from [origin]. *)
Definition cell_kept (origin : Point3D) (max_range : float) (cell : VoxelCell)
  : bool :=
  match cell with
  | [] => true
  | rep :: _ => negb (max_range <? distance rep origin)
  end.

(** Modelled from the spec: [remove_far_points] - a cell is dropped when its
    representative (its first point) is farther than [max_range] from
    [origin]. *)
Definition remove_far_points (origin : Point3D) (max_range : float)
    (m : VoxelHashMap) : VoxelHashMap :=
  filter (fun kc => cell_kept origin max_range (snd kc)) m.

Definition point_count (m : VoxelHashMap) : nat :=
  List.length (flat_map snd m).

Definition points (m : VoxelHashMap) : Vector3dVector := flat_map snd m.

(** *** The parts the specification leaves open *)

(** Modelled from the spec: the interpolated per-point motion correction
    (4.1), the range test, the two downsampling resolutions (4.2), the robust
    least-squares increment, its re-orthonormalisation and magnitude (4.5)
    and the motion magnitude (4.4) are described but not fixed by the
    specification; the pipeline is modelled over any choice of them.
    [fresh_config] is the content of a default-constructed [_KISSConfig],
    and [foreign_points] is what the point-sequence constructor makes of an
    array that is not float64, which the specification does not say. *)
Class Components : Type := Build_Components {
  deskew_point : Matrix4d -> Matrix4d -> float -> Point3D -> Point3D;
  in_range : float -> float -> Point3D -> bool;
  source_resolution : float -> float;
  keypoint_resolution : float -> float;
  solve_increment : list (Point3D * Point3D) -> Matrix4d;
  reorthonormalize : Matrix4d -> Matrix4d;
  increment_magnitude : Matrix4d -> float;
  motion_magnitude : Matrix4d -> Matrix4d -> float;
  fresh_config : Pybind._KISSConfig;
  foreign_points : ndarray -> Vector3dVector
}.

(** *** AdaptiveThresholdEstimator (spec, section 4.4) *)

Inductive phase : Type :=
| COLD_START
| WARM.

(** Modelled from the spec: the estimator's state - its phase, the running
    sum of squares and count of the motions folded in, and the threshold
    derived from them (sections 3 and 4.4). *)
Record AdaptiveThresholdState : Type := Build_AdaptiveThresholdState {
  current_phase : phase;
  sum_of_squares : float;
  num_samples : Z;
  threshold : float
}.

(** Modelled from the spec: in COLD_START the threshold is
    [initial_threshold]. *)
Definition threshold_initial (cfg : Pybind._KISSConfig) : AdaptiveThresholdState :=
  Build_AdaptiveThresholdState COLD_START 0 0 (Pybind.initial_threshold cfg).

Section Pipeline.
Context {C : Components}.

(** Modelled from the spec: before the second frame nothing is folded in;
    afterwards a motion above [min_motion_th] is added to the running sum of
    squares and the threshold becomes three standard deviations, and a
    smaller motion is discarded. *)
Definition threshold_update (cfg : Pybind._KISSConfig)
    (st : AdaptiveThresholdState) (previous : option Matrix4d)
    (new_pose : Matrix4d) : AdaptiveThresholdState :=
  match previous with
  | None => st
  | Some prev =>
      let magnitude := motion_magnitude prev new_pose in
      if Pybind.min_motion_th cfg <? magnitude then
        let s := sum_of_squares st + magnitude * magnitude in
        let n := (num_samples st + 1)%Z in
        Build_AdaptiveThresholdState WARM s n (3 * sqrt (s / float_of_Z n))
      else
        Build_AdaptiveThresholdState WARM (sum_of_squares st) (num_samples st)
          (threshold st)
  end.

(** *** MotionDeskewer (spec, section 4.1) *)

(** Modelled from the spec: the two most recent accepted poses, or identity
    with fewer than two frames processed. *)
Definition last_two (trajectory : list Matrix4d) : Matrix4d * Matrix4d :=
  match rev trajectory with
  | last :: prev :: _ => (prev, last)
  | _ => (identity4, identity4)
  end.

Definition is_empty {A} (l : list A) : bool :=
  match l with [] => true | _ => false end.

(** Modelled from the spec: a no-op identity pass when [deskew] is disabled
    or timestamps are absent, the per-point correction otherwise. *)
Definition deskew (cfg : Pybind._KISSConfig) (trajectory : list Matrix4d)
    (timestamps : list float) (frame : Vector3dVector) : Vector3dVector :=
  if (Pybind.deskew cfg && negb (is_empty timestamps))%bool then
    let '(prev, last) := last_two trajectory in
    map (fun pt => deskew_point prev last (snd pt) (fst pt))
        (combine frame timestamps)
  else frame.

(** Modelled from the spec: the range filter keeps the points that pass
    the range test for [min_range] and [max_range]. *)
Definition range_filter (cfg : Pybind._KISSConfig) (frame : Vector3dVector)
  : Vector3dVector :=
  filter (in_range (Pybind.min_range cfg) (Pybind.max_range cfg)) frame.

(** *** ScanMatcher (spec, section 4.5) *)

(** Modelled from the spec: the predicted initial pose - constant-velocity
    extrapolation from the last two accepted poses (the last pose composed
    with the motion between them), identity when the history is
    insufficient. *)
Definition initial_guess (trajectory : list Matrix4d) : Matrix4d :=
  match rev trajectory with
  | last :: prev :: _ => mat_mul last (mat_mul (rigid_inverse prev) last)
  | _ => identity4
  end.

(** Modelled from the spec: the iterative alignment, at most [rounds]
    rounds of transform, match, solve, apply, test.  A round without
    correspondences is a zero increment and stops at the current estimate;
    the matched points are those of the last round. *)
Fixpoint align (rounds : nat) (voxel_size : float) (m : VoxelHashMap)
    (source : Vector3dVector) (max_radius criterion : float)
    (pose : Matrix4d) (matched : Vector3dVector)
  : Matrix4d * Vector3dVector :=
  match rounds with
  | O => (pose, matched)
  | S rounds' =>
      let queries := map (fun p => (p, transform pose p)) source in
      match get_correspondences voxel_size m max_radius queries with
      | [] => (pose, [])
      | c0 :: cs =>
          let found := c0 :: cs in
          let increment :=
            solve_increment
              (map (fun sc => (transform pose (fst sc), snd sc)) found) in
          let pose' := reorthonormalize (mat_mul increment pose) in
          if increment_magnitude increment <? criterion
          then (pose', map fst found)
          else align rounds' voxel_size m source max_radius criterion pose'
                     (map fst found)
      end
  end.

(** *** OdometryPipeline (spec, sections 2 and 4.6) *)

(** Modelled from the spec: the state one pipeline instance owns - its
    configuration, the trajectory, the voxel map and the estimator. *)
Record State : Type := Build_State {
  cfg : Pybind._KISSConfig;
  trajectory : list Matrix4d;
  voxel_map : VoxelHashMap;
  adaptive : AdaptiveThresholdState
}.

(** Modelled from the spec: a freshly constructed pipeline - empty
    trajectory, empty map, estimator at its initial value. *)
Definition initial (config : Pybind._KISSConfig) : State :=
  Build_State config [] [] (threshold_initial config).

(** Modelled from the spec: [last_pose()] - the most recently appended
    trajectory entry, or identity if no frame was processed yet. *)
Definition last_pose (st : State) : Matrix4d := last (trajectory st) identity4.

(** Modelled from the spec: [local_map()] - all points currently retained by
    the voxel map. *)
Definition local_map (st : State) : Vector3dVector := points (voxel_map st).

(** Modelled from the spec: [reset()] - trajectory, map and estimator back
    to their initial values, the configuration retained. *)
Definition reset (st : State) : State := initial (cfg st).

(** Modelled from the spec: the previous accepted pose, if any. *)
Definition previous_pose (st : State) : option Matrix4d :=
  match rev (trajectory st) with
  | last :: _ => Some last
  | [] => None
  end.

(** Modelled from the spec: the map update of one frame - the keypoints
    are inserted at the accepted pose, then cells out of range of that pose
    are removed. *)
Definition map_update (config : Pybind._KISSConfig) (keypoints : Vector3dVector)
    (pose : Matrix4d) (m : VoxelHashMap) : VoxelHashMap :=
  remove_far_points (translation pose) (Pybind.max_range config)
    (insert (Pybind.voxel_size config) (Pybind.max_points_per_voxel config)
            (map (transform pose) keypoints) m).

(** Modelled from the spec: the per-frame sequence of section 2 - deskew,
    range filter, two downsamplings, threshold, alignment from the predicted
    pose, then the pose is appended, the map updated and the estimator
    updated.  The native [_KissICP] class is not part of the sources. *)
Definition register_cloud (st : State) (raw_points : Vector3dVector)
    (timestamps : list float) : State * (Vector3dVector * Vector3dVector) :=
  let config := cfg st in
  let deskewed := deskew config (trajectory st) timestamps raw_points in
  let frame := range_filter config deskewed in
  let source :=
    voxel_down_sample frame (source_resolution (Pybind.voxel_size config)) in
  let keypoints :=
    voxel_down_sample frame (keypoint_resolution (Pybind.voxel_size config)) in
  let sigma := threshold (adaptive st) in
  let '(new_pose, matched) :=
    align (Z.to_nat (Pybind.max_num_iterations config))
          (Pybind.voxel_size config) (voxel_map st) source sigma
          (Pybind.convergence_criterion config)
          (initial_guess (trajectory st)) [] in
  (Build_State config
     (trajectory st ++ [new_pose])%list
     (map_update config keypoints new_pose (voxel_map st))
     (threshold_update config (adaptive st) (previous_pose st) new_pose),
   (frame, matched)).

(** Modelled from the spec: [register_frame] - the degenerate case of
    section 7 first: an empty input cloud gives empty outputs, leaves the
    pose and the estimator as they are and does not update the map; the
    unchanged pose is the trajectory entry of that frame (section 3: one
    pose per registered frame).  Any other cloud goes through the per-frame
    sequence. *)
Definition register_frame (st : State) (raw_points : Vector3dVector)
    (timestamps : list float) : State * (Vector3dVector * Vector3dVector) :=
  match raw_points with
  | [] =>
      (Build_State (cfg st) (trajectory st ++ [last_pose st])%list
         (voxel_map st) (adaptive st),
       ([], []))
  | _ :: _ => register_cloud st raw_points timestamps
  end.

(** Modelled from the spec: the point-sequence constructor - all geometry
    is double precision, so a float64 array is read row by row. *)
Definition read_points (a : ndarray) : Vector3dVector :=
  match a with
  | FloatArray float64 rows => rows
  | _ => foreign_points a
  end.

(** Modelled from the spec: the pipeline as the native interface the Python
    wrapper drives. *)
#[export] Instance native : Native.Interface :=
  Native.Build_Interface State read_points fresh_config initial
    register_frame last_pose local_map reset voxel_down_sample.

End Pipeline.

End Core.

(** ** Fixtures for concrete runs *)

Module Examples.

Local Open Scope float_scope.

Fixpoint lookup (k : string) (kv : list (string * PyObj)) : option PyObj :=
  match kv with
  | [] => None
  | (k', v) :: rest => if String.eqb k k' then Some v else lookup k rest
  end.

Definition section (k : string) (kv : list (string * PyObj))
  : list (string * PyObj) :=
  match lookup k kv with
  | Some (PyDict d) => d
  | _ => []
  end.

Definition float_field (k : string) (kv : list (string * PyObj))
    (default : float) : float :=
  match lookup k kv with
  | Some (PyFloat f) => f
  | Some (PyInt z) => float_of_Z z
  | _ => default
  end.

Definition optional_float_field (k : string) (kv : list (string * PyObj))
  : option float :=
  match lookup k kv with
  | Some (PyFloat f) => Some f
  | Some (PyInt z) => Some (float_of_Z z)
  | _ => None
  end.

(** A validator that accepts the three float settings the adjustments of
    [load_config] look at and keeps every other field at its default. *)
Definition validate_ranges (kv : list (string * PyObj)) : result Parser.KISSConfig :=
  Success
    (Parser.Build_KISSConfig "results"
       (Config.Build_DataConfig true
          (float_field "max_range" (section "data" kv) 100.0)
          (float_field "min_range" (section "data" kv) 0.0))
       (Config.Build_RegistrationConfig 500 0.0001 0)
       (Config.Build_MappingConfig
          (optional_float_field "voxel_size" (section "mapping" kv)) 20)
       (Config.Build_AdaptiveThresholdConfig 2.0 0.1)).

Definition pydantic : Parser.Pydantic :=
  Parser.Build_Pydantic
    (Config.Build_DataConfig true 100.0 0.0)
    (Config.Build_RegistrationConfig 500 0.0001 0)
    (Config.Build_MappingConfig None 20)
    (Config.Build_AdaptiveThresholdConfig 2.0 0.1)
    validate_ranges.

(** An environment whose [kiss_icp_] variables the settings class rejects,
    whatever the keyword arguments. *)
Definition rejecting_environment : Parser.Pydantic :=
  Parser.Build_Pydantic
    (Config.Build_DataConfig true 100.0 0.0)
    (Config.Build_RegistrationConfig 500 0.0001 0)
    (Config.Build_MappingConfig None 20)
    (Config.Build_AdaptiveThresholdConfig 2.0 0.1)
    (fun _ => Failure ValidationError).

(** An environment in which [kiss_icp_out_dir] is set: the settings class
    takes the output directory from it when no keyword gives one. *)
Definition environment_with_out_dir : Parser.Pydantic :=
  Parser.Build_Pydantic
    (Config.Build_DataConfig true 100.0 0.0)
    (Config.Build_RegistrationConfig 500 0.0001 0)
    (Config.Build_MappingConfig None 20)
    (Config.Build_AdaptiveThresholdConfig 2.0 0.1)
    (fun kv =>
       match validate_ranges kv with
       | Success c =>
           Success
             (Parser.Build_KISSConfig
                (match lookup "out_dir" kv with
                 | Some (PyStr dir) => dir
                 | _ => "elsewhere"
                 end)
                (Parser.data c) (Parser.registration c) (Parser.mapping c)
                (Parser.adaptive_threshold c))
       | Failure e => Failure e
       end).

(** An installation without PyYAML and without files. *)
Definition bare_world : Parser.World := Parser.Build_World None (fun _ => None).

(** An installation with PyYAML and one configuration file, whose content
    parses to the given object. *)
Definition world_with (file : string) (content : PyObj) : Parser.World :=
  Parser.Build_World
    (Some (Parser.Build_YamlModule (fun _ => Success content)))
    (fun path => if String.eqb path file then Some "" else None).

(** [data: {max_range: -5.0, min_range: 2.0}] *)
Definition negative_max_range : PyObj :=
  PyDict [("data", PyDict [("max_range", PyFloat (-5.0)); ("min_range", PyFloat 2.0)])].

(** [data: {max_range: 50.0, min_range: 80.0}] *)
Definition swapped_ranges : PyObj :=
  PyDict [("data", PyDict [("max_range", PyFloat 50.0); ("min_range", PyFloat 80.0)])].

(** The nested configuration with every field at its default; its
    [voxel_size] is unset. *)
Definition nested_default : Parser.KISSConfig :=
  @Parser.KISSConfig_default pydantic.

Definition zero_struct : Pybind._KISSConfig :=
  Pybind.Build_KISSConfig 0 0 0 0 0 0 0 0 0 false.

(** A translation along the three axes. *)
Definition translate (x y z : float) : Matrix4d :=
  [[1; 0; 0; x]; [0; 1; 0; y]; [0; 0; 1; z]; [0; 0; 0; 1]].

Definition norm (p : Point3D) : float := Core.distance p (0, 0, 0).

(** One choice of the open parts, good enough to drive the pipeline on
    translations: no deskewing correction, a keep-if-strictly-inside range
    test, the two resolutions [voxel_size] and [1.5 * voxel_size], and an
    increment that moves the first matched point onto its map point. *)
Definition components : Core.Components :=
  Core.Build_Components
    (fun _ _ _ p => p)
    (fun lo hi p => ((lo <? norm p) && (norm p <? hi))%bool)
    (fun v => v)
    (fun v => 1.5 * v)
    (fun pairs =>
       match pairs with
       | ((px, py, pz), (qx, qy, qz)) :: _ => translate (qx - px) (qy - py) (qz - pz)
       | [] => Core.identity4
       end)
    (fun m => m)
    (fun m => norm (Core.translation m))
    (fun a b => Core.distance (Core.translation a) (Core.translation b))
    zero_struct
    (fun _ => []).

Definition empty_frame : ndarray := FloatArray float64 [].

(** A pipeline built from the dataclass defaults, after a first frame with
    one point at [(1, 0, 0)] and a second frame that sees the same point at
    [(0.5, 0, 0)]. *)
Definition after_two_frames : @KissIcp.KissICP (@Core.native components) :=
  let k0 := @KissIcp.__init__ (@Core.native components) None in
  let k1 := fst (KissIcp.register_frame k0 (FloatArray float64 [(1, 0, 0)]) None) in
  fst (KissIcp.register_frame k1 (FloatArray float64 [(0.5, 0, 0)]) None).

End Examples.

(** ** [write_config] of [kiss_icp/config/parser.py] *)

Module Writer.

(** Whether an object can be unpacked as keyword arguments. *)
Definition is_mapping (v : PyObj) : bool :=
  match v with
  | PyDict _ => true
  | _ => false
  end.

(** Library code [write_config] calls: pydantic's [model_dump], PyYAML's
    [dump] (with [default_flow_style=False]) as the text it writes, and
    Python's [str] of a dictionary.  They are parameters. *)
Class Serialisers : Type := Build_Serialisers {
  model_dump : Parser.KISSConfig -> PyObj;
  yaml_dump : Parser.YamlModule -> PyObj -> string;
  py_str : PyObj -> string
}.

(** Which path strings name the same file.  Different strings may name one
    file (a leading [./], an absolute path, a link), so the file system
    decides; a path names the same file as itself. *)
Class Paths : Type := Build_Paths {
  same_file : string -> string -> bool;
  same_file_refl : forall path, same_file path path = true
}.

(** The world in which one file has been (re)written: every path naming
    that file now reads the new content. *)
Definition with_file {F : Paths} (w : Parser.World) (filename content : string)
  : Parser.World :=
  Parser.Build_World (Parser.import_yaml w)
    (fun path =>
       if same_file path filename then Some content
       else Parser.read_file w path).

Section WithLibraries.
Context {P : Parser.Pydantic} {S : Serialisers} {F : Paths}.

(** The default of the [config] argument: [KISSConfig()] as built once,
    when the module is imported (had that construction failed, the module
    would not exist to be called). *)
Definition default_config : Parser.KISSConfig :=
  match Parser.KISSConfig_init (PyDict []) with
  | Success c => c
  | Failure _ => Parser.KISSConfig_default
  end.

(** [write_config(config, filename)], both arguments optional.  The file is
    opened for writing first ([can_write] tells whether that succeeds); then
    PyYAML is imported and dumps the configuration, and a missing PyYAML is
    caught and replaced by writing the [str] of the dumped dictionary.  The
    result is the outcome and the world afterwards. *)
Definition write_config (can_write : string -> bool) (w : Parser.World)
    (config : option Parser.KISSConfig) (filename : option string)
  : outcome unit * Parser.World :=
  let config :=
    match config with Some c => c | None => default_config end in
  let filename :=
    match filename with Some f => f | None => "kiss_icp.yaml" end in
  if can_write filename then
    let content :=
      match Parser.import_yaml w with
      | Some yaml => yaml_dump yaml (model_dump config)
      | None => py_str (model_dump config)
      end in
    (Returned tt, with_file w filename content)
  else (Raised OSError, w).

End WithLibraries.

End Writer.

(** ** Fixtures for [write_config] *)

Module WriterExamples.

Local Open Scope float_scope.

Definition optional_float (v : option float) : PyObj :=
  match v with
  | Some f => PyFloat f
  | None => PyNone
  end.

(** A dump of the three settings [Examples.validate_ranges] reads. *)
Definition dump_ranges (c : Parser.KISSConfig) : PyObj :=
  PyDict
    [("data",
      PyDict [("max_range", PyFloat (Config.max_range (Parser.data c)));
              ("min_range", PyFloat (Config.min_range (Parser.data c)))]);
     ("mapping",
      PyDict [("voxel_size",
               optional_float (Config.voxel_size (Parser.mapping c)))])].

Definition serialisers : Writer.Serialisers :=
  Writer.Build_Serialisers dump_ranges (fun _ _ => "yaml text")
    (fun _ => "dict text").

(** The configuration [load_config] returns from the defaults. *)
Definition loaded_default : Parser.KISSConfig :=
  Parser.Build_KISSConfig "results"
    (Config.Build_DataConfig true 100.0 0.0)
    (Config.Build_RegistrationConfig 500 0.0001 0)
    (Config.Build_MappingConfig (Some 1.0) 20)
    (Config.Build_AdaptiveThresholdConfig 2.0 0.1).

(** A PyYAML whose loader reads back the dump of [loaded_default]. *)
Definition yaml_module : Parser.YamlModule :=
  Parser.Build_YamlModule (fun _ => Success (dump_ranges loaded_default)).

(** An installation with that PyYAML and no file yet. *)
Definition yaml_world : Parser.World :=
  Parser.Build_World (Some yaml_module) (fun _ => None).

Definition anywhere (path : string) : bool := true.

(** A path without a leading [./]. *)
Definition strip_dot_slash (path : string) : string :=
  match path with
  | String "." (String "/" rest) => rest
  | _ => path
  end.

(** A file system in which [./name] and [name] are the same file. *)
Definition paths : Writer.Paths :=
  Writer.Build_Paths
    (fun p q => String.eqb (strip_dot_slash p) (strip_dot_slash q))
    (fun p => String.eqb_refl (strip_dot_slash p)).

End WriterExamples.

(** * Properties *)

(** ** Comparison of binary64 values *)

Section FloatOrder.

Local Open Scope float_scope.

Lemma SFcompare_antisym (x y : spec_float) :
  SFcompare y x =
  match SFcompare x y with Some c => Some (CompOpp c) | None => None end.
Proof.
  destruct x as [sx|sx| |sx mx ex], y as [sy|sy| |sy my ey]; simpl;
    try reflexivity;
    try (destruct sx; reflexivity); try (destruct sy; reflexivity);
    try (destruct sx, sy; reflexivity).
  destruct sx, sy; try reflexivity;
    rewrite (Z.compare_antisym ex ey);
    destruct (ex ?= ey)%Z; simpl; try reflexivity;
    rewrite (Pos.compare_cont_antisym mx my Eq); reflexivity.
Qed.

Lemma SFcompare_refl (x : spec_float) :
  x <> S754_nan -> SFcompare x x = Some Eq.
Proof.
  destruct x as [s|s| |s m e]; simpl; intros H; try reflexivity.
  - destruct s; reflexivity.
  - contradiction.
  - rewrite Z.compare_refl, Pos.compare_cont_refl. destruct s; reflexivity.
Qed.

Lemma SFcompare_none (x y : spec_float) :
  SFcompare x y = None -> x = S754_nan \/ y = S754_nan.
Proof.
  destruct x as [sx|sx| |sx mx ex], y as [sy|sy| |sy my ey]; simpl; auto;
    discriminate.
Qed.

Lemma is_nan_spec (x : float) : is_nan x = false <-> Prim2SF x <> S754_nan.
Proof.
  unfold is_nan. rewrite FloatAxioms.eqb_spec. unfold SFeqb. split.
  - intros H E. rewrite E in H. discriminate.
  - intros H. rewrite (SFcompare_refl _ H). reflexivity.
Qed.

Lemma leb_true_not_nan (x y : float) : (x <=? y) = true -> is_nan y = false.
Proof.
  rewrite leb_spec. unfold SFleb. intros H. apply is_nan_spec. intros E.
  rewrite E in H. destruct (Prim2SF x); discriminate.
Qed.

(** Away from NaN, [not (x < y)] is [y <= x]. *)
Lemma ltb_false_leb (x y : float) :
  is_nan x = false -> is_nan y = false -> (x <? y) = false -> (y <=? x) = true.
Proof.
  intros Hx Hy. rewrite ltb_spec, leb_spec. unfold SFltb, SFleb.
  rewrite (SFcompare_antisym (Prim2SF x) (Prim2SF y)).
  destruct (SFcompare (Prim2SF x) (Prim2SF y)) as [[]|] eqn:E; simpl;
    try reflexivity; try discriminate.
  intros _. apply SFcompare_none in E. apply is_nan_spec in Hx, Hy.
  destruct E; contradiction.
Qed.

End FloatOrder.

(** ** Configuration loading *)

Section LoadConfig.

Context {P : Parser.Pydantic}.

Local Open Scope float_scope.

Ltac run_py :=
  unfold bind, lift, ret, raise, print, sys_exit; simpl.

Ltac step_py :=
  repeat (progress (unfold bind, lift, ret, raise, print, sys_exit;
                    cbn beta iota)).

(** [_yaml_source] without a file: nothing is imported, opened or printed. *)
Lemma yaml_source_no_file (w : Parser.World) (out : list string) :
  Parser._yaml_source w None out = (Returned (PyDict []), out).
Proof. reflexivity. Qed.

(** [load_config] is [construct] followed by the two adjustments; it ends
    the way [construct] does. *)
Lemma load_config_after_construct (w : Parser.World) (cf : option string)
    (out : list string) :
  Parser.load_config w cf out =
  match Parser.construct w cf out with
  | (Returned c0, out0) =>
      (Returned (Parser.adjust_voxel_size (Parser.adjust_min_range c0)),
       (out0 ++ Parser.warnings c0)%list)
  | (Exited s, out0) => (Exited s, out0)
  | (Raised e, out0) => (Raised e, out0)
  end.
Proof.
  unfold Parser.load_config, Parser.construct, bind.
  destruct (Parser._yaml_source w cf out) as [[kw|s|e] o]; try reflexivity.
  unfold lift.
  destruct (Parser.KISSConfig_init kw) as [c0|e]; [|reflexivity].
  unfold ret, print, Parser.adjust_min_range, Parser.warnings,
    Parser.adjust_voxel_size, Parser.max_below_min.
  destruct (Config.max_range (Parser.data c0) <? Config.min_range (Parser.data c0));
    simpl; rewrite ?app_nil_r;
    destruct (Config.voxel_size (Parser.mapping c0)); reflexivity.
Qed.

Lemma load_config_returned (w : Parser.World) (cf : option string)
    (out out' : list string) (c : Parser.KISSConfig) :
  Parser.load_config w cf out = (Returned c, out') ->
  exists c0 out0,
    Parser.construct w cf out = (Returned c0, out0) /\
    c = Parser.adjust_voxel_size (Parser.adjust_min_range c0) /\
    out' = (out0 ++ Parser.warnings c0)%list.
Proof.
  rewrite load_config_after_construct.
  destruct (Parser.construct w cf out) as [[c0|s|e] out0]; try discriminate.
  intros H. injection H as <- <-. exists c0, out0. auto.
Qed.

Ltac adjust_cases c0 :=
  unfold Parser.adjust_voxel_size, Parser.adjust_min_range,
    Parser.set_data_min_range, Parser.set_mapping_voxel_size;
  destruct (Parser.max_below_min c0); cbn;
  destruct (Config.voxel_size (Parser.mapping c0)) eqn:Evoxel; cbn;
  rewrite ?Evoxel; reflexivity.

Lemma adjust_keeps_max_range (c0 : Parser.KISSConfig) :
  Config.max_range (Parser.data (Parser.adjust_voxel_size (Parser.adjust_min_range c0)))
  = Config.max_range (Parser.data c0).
Proof.
  adjust_cases c0.
Qed.

Lemma adjust_min_range_value (c0 : Parser.KISSConfig) :
  Config.min_range (Parser.data (Parser.adjust_voxel_size (Parser.adjust_min_range c0)))
  = if Parser.max_below_min c0 then 0.0 else Config.min_range (Parser.data c0).
Proof.
  adjust_cases c0.
Qed.

Lemma adjust_voxel_size_value (c0 : Parser.KISSConfig) :
  Config.voxel_size (Parser.mapping (Parser.adjust_voxel_size (Parser.adjust_min_range c0)))
  = match Config.voxel_size (Parser.mapping c0) with
    | None => Some (Config.max_range (Parser.data c0) / 100.0)
    | Some v => Some v
    end.
Proof.
  adjust_cases c0.
Qed.

(** C1 (as amended).  Whenever the constructed configuration has
    [max_range < min_range], [load_config] prints the warning, sets
    [min_range] to [0.0] and still returns; otherwise it leaves
    [min_range] as constructed and prints nothing more.  [max_range] is
    never touched.  When neither constructed range is NaN, the returned
    configuration satisfies [max_range >= min_range] exactly when the
    constructed ranges were already in order or the constructed [max_range]
    is not negative.  Every configuration [load_config] returns is obtained
    this way. *)
Theorem load_config_min_range (w : Parser.World) (cf : option string)
    (out : list string) :
  (forall c0 out0,
     Parser.construct w cf out = (Returned c0, out0) ->
     exists c,
       Parser.load_config w cf out
       = (Returned c, (out0 ++ Parser.warnings c0)%list) /\
       Config.max_range (Parser.data c) = Config.max_range (Parser.data c0) /\
       (Parser.max_below_min c0 = true ->
          Config.min_range (Parser.data c) = 0.0 /\
          Parser.warnings c0 = [Parser.min_range_warning]) /\
       (Parser.max_below_min c0 = false ->
          Config.min_range (Parser.data c) = Config.min_range (Parser.data c0) /\
          Parser.warnings c0 = []) /\
       (is_nan (Config.max_range (Parser.data c0)) = false ->
        is_nan (Config.min_range (Parser.data c0)) = false ->
        Parser.ranges_ordered c
        = (negb (Parser.max_below_min c0)
           || (0.0 <=? Config.max_range (Parser.data c0)))%bool)) /\
  (forall c out',
     Parser.load_config w cf out = (Returned c, out') ->
     exists c0 out0, Parser.construct w cf out = (Returned c0, out0)).
Proof.
  split.
  - intros c0 out0 Hc.
    exists (Parser.adjust_voxel_size (Parser.adjust_min_range c0)).
    split; [rewrite load_config_after_construct, Hc; reflexivity|].
    split; [apply adjust_keeps_max_range|].
    unfold Parser.ranges_ordered.
    rewrite adjust_keeps_max_range, adjust_min_range_value.
    unfold Parser.warnings.
    split; [|split].
    + intros ->. split; reflexivity.
    + intros ->. split; reflexivity.
    + intros Hmax Hmin. unfold Parser.max_below_min.
      destruct (Config.max_range (Parser.data c0)
                <? Config.min_range (Parser.data c0)) eqn:E; simpl.
      * reflexivity.
      * apply ltb_false_leb; assumption.
  - intros c out' H. apply load_config_returned in H.
    destruct H as (c0 & out0 & Hc & _). exists c0, out0. exact Hc.
Qed.

(** C4.  A configuration returned by [load_config] has [voxel_size] equal to
    its [max_range / 100.0] when the constructed configuration left it unset,
    and has the constructed value otherwise. *)
Theorem load_config_voxel_size (w : Parser.World) (cf : option string)
    (out out' : list string) (c : Parser.KISSConfig) :
  Parser.load_config w cf out = (Returned c, out') ->
  exists c0 out0,
    Parser.construct w cf out = (Returned c0, out0) /\
    (Config.voxel_size (Parser.mapping c0) = None ->
       Config.voxel_size (Parser.mapping c)
       = Some (Config.max_range (Parser.data c) / 100.0)) /\
    (forall v, Config.voxel_size (Parser.mapping c0) = Some v ->
       Config.voxel_size (Parser.mapping c) = Some v).
Proof.
  intros H. apply load_config_returned in H.
  destruct H as (c0 & out0 & Hc & -> & ->).
  exists c0, out0. split; [exact Hc|].
  rewrite adjust_voxel_size_value, adjust_keeps_max_range.
  split.
  - intros ->. reflexivity.
  - intros v ->. reflexivity.
Qed.

(** C10 (as amended).  Without a configuration file [load_config] imports
    nothing, never exits and ends as the constructor call without keywords
    ends: when that call raises, so does [load_config], and when it returns
    a configuration, [load_config] returns it after the two adjustments;
    whether PyYAML can be imported plays no part.  When the constructor
    returns the all-default configuration, every field the adjustments do
    not own is the default.  [load_config] leaves the interpreter only
    through the PyYAML-missing branch, and that needs a file path. *)
Theorem load_config_without_file (w : Parser.World) (out : list string) :
  Parser.load_config w None out
  = match Parser.KISSConfig_init (PyDict []) with
    | Success c0 =>
        (Returned (Parser.adjust_voxel_size (Parser.adjust_min_range c0)),
         (out ++ Parser.warnings c0)%list)
    | Failure e => (Raised e, out)
    end /\
  (forall w', Parser.load_config w None out = Parser.load_config w' None out) /\
  (Parser.KISSConfig_init (PyDict []) = Success Parser.KISSConfig_default ->
   let c :=
     Parser.adjust_voxel_size (Parser.adjust_min_range Parser.KISSConfig_default) in
   Parser.load_config w None out
   = (Returned c, (out ++ Parser.warnings Parser.KISSConfig_default)%list) /\
   Parser.out_dir c = "results"%string /\
   Parser.registration c = Parser.RegistrationConfig_default /\
   Parser.adaptive_threshold c = Parser.AdaptiveThresholdConfig_default /\
   Config.deskew (Parser.data c) = Config.deskew Parser.DataConfig_default /\
   Config.max_range (Parser.data c) = Config.max_range Parser.DataConfig_default /\
   Config.max_points_per_voxel (Parser.mapping c)
   = Config.max_points_per_voxel Parser.MappingConfig_default) /\
  (forall cf o s o',
     Parser.load_config w cf o = (Exited s, o') ->
     exists path,
       cf = Some path /\ Parser.import_yaml w = None /\ s = 1%Z /\
       o' = (o ++ [Parser.yaml_missing_message])%list) /\
  (forall path o,
     Parser.import_yaml w = None ->
     Parser.load_config w (Some path) o
     = (Exited 1, (o ++ [Parser.yaml_missing_message])%list)).
Proof.
  assert (Hnone : forall w0,
            Parser.load_config w0 None out
            = match Parser.KISSConfig_init (PyDict []) with
              | Success c0 =>
                  (Returned (Parser.adjust_voxel_size (Parser.adjust_min_range c0)),
                   (out ++ Parser.warnings c0)%list)
              | Failure e => (Raised e, out)
              end).
  { intros w0. rewrite load_config_after_construct.
    unfold Parser.construct, Parser._yaml_source. run_py.
    destruct (Parser.validate []); reflexivity. }
  split; [apply Hnone|]. split; [intros w'; rewrite !Hnone; reflexivity|].
  split; [|split].
  - intros Hdefault. cbv zeta. rewrite Hnone, Hdefault.
    split; [reflexivity|].
    unfold Parser.adjust_voxel_size, Parser.adjust_min_range,
      Parser.set_data_min_range, Parser.set_mapping_voxel_size.
    destruct (Parser.max_below_min Parser.KISSConfig_default); simpl;
      destruct (Config.voxel_size Parser.MappingConfig_default); simpl;
      repeat split; reflexivity.
  - intros cf o s o'. rewrite load_config_after_construct.
    unfold Parser.construct, Parser._yaml_source.
    destruct cf as [path|].
    + destruct (Parser.import_yaml w) as [y|] eqn:Ey.
      * unfold Parser.open_and_read.
        destruct (Parser.read_file w path) as [text|];
          [|step_py; discriminate].
        step_py.
        destruct (Parser.safe_load y text) as [d|e];
          [|step_py; discriminate].
        step_py.
        destruct (Parser.KISSConfig_init (py_or d (PyDict [])));
          step_py; discriminate.
      * run_py. intros H. injection H as <- <-. exists path. auto.
    + step_py.
      destruct (Parser.KISSConfig_init (py_or PyNone (PyDict [])));
        step_py; discriminate.
  - intros path o Ey. rewrite load_config_after_construct.
    unfold Parser.construct, Parser._yaml_source. rewrite Ey. reflexivity.
Qed.

End LoadConfig.

(** ** Concrete runs of [load_config] *)

Section LoadConfigRuns.

Local Open Scope float_scope.

(** The configuration returned for a file that swaps the two ranges. *)
Lemma load_config_swapped_ranges :
  run (@Parser.load_config Examples.pydantic
         (Examples.world_with "config.yaml" Examples.swapped_ranges)
         (Some "config.yaml"%string))
  = (Returned
       (Parser.Build_KISSConfig "results"
          (Config.Build_DataConfig true 50.0 0.0)
          (Config.Build_RegistrationConfig 500 0.0001 0)
          (Config.Build_MappingConfig (Some 0.5) 20)
          (Config.Build_AdaptiveThresholdConfig 2.0 0.1)),
     [Parser.min_range_warning]).
Proof. vm_compute. reflexivity. Qed.

(** C1, at a concrete input: with [max_range: 50.0] and [min_range: 80.0]
    in the file, the theorem gives a returned configuration with the warning
    printed, [min_range] at [0.0] and the invariant. *)
Lemma load_config_min_range_witness :
  exists c,
    run (@Parser.load_config Examples.pydantic
           (Examples.world_with "config.yaml" Examples.swapped_ranges)
           (Some "config.yaml"%string))
    = (Returned c, [Parser.min_range_warning]) /\
    Config.min_range (Parser.data c) = 0.0 /\
    Parser.ranges_ordered c = true.
Proof.
  destruct (proj1 (@load_config_min_range Examples.pydantic
                     (Examples.world_with "config.yaml" Examples.swapped_ranges)
                     (Some "config.yaml"%string) [])
              (Parser.Build_KISSConfig "results"
                 (Config.Build_DataConfig true 50.0 80.0)
                 (Config.Build_RegistrationConfig 500 0.0001 0)
                 (Config.Build_MappingConfig None 20)
                 (Config.Build_AdaptiveThresholdConfig 2.0 0.1))
              [] ltac:(vm_compute; reflexivity))
    as (c & Hrun & _ & Hlt & _ & Hinv).
  exists c. split; [exact Hrun|]. split.
  - apply Hlt. reflexivity.
  - rewrite Hinv; reflexivity.
Defined.

(** C1, counterexample to the invariant as claimed for every returned
    configuration: a file with [max_range: -5.0] and [min_range: 2.0] is
    loaded without failure, the warning is printed, [min_range] is set to
    [0.0], and the returned configuration has [max_range < min_range]. *)
Lemma load_config_negative_max_range :
  let c := Parser.Build_KISSConfig "results"
             (Config.Build_DataConfig true (-5.0) 0.0)
             (Config.Build_RegistrationConfig 500 0.0001 0)
             (Config.Build_MappingConfig (Some (-0.05)) 20)
             (Config.Build_AdaptiveThresholdConfig 2.0 0.1) in
  run (@Parser.load_config Examples.pydantic
         (Examples.world_with "config.yaml" Examples.negative_max_range)
         (Some "config.yaml"%string))
  = (Returned c, [Parser.min_range_warning]) /\
  Parser.ranges_ordered c = false /\
  (Config.max_range (Parser.data c) <? Config.min_range (Parser.data c)) = true.
Proof. vm_compute. repeat split; reflexivity. Qed.

(** A file path without PyYAML: the message is printed and the interpreter
    exits with status 1. *)
Lemma load_config_exits_without_yaml :
  run (@Parser.load_config Examples.pydantic Examples.bare_world
         (Some "config.yaml"%string))
  = (Exited 1, [Parser.yaml_missing_message]).
Proof. vm_compute. reflexivity. Qed.

(** The configuration returned when no file is given and PyYAML is absent. *)
Lemma load_config_defaults_run :
  @Parser.load_config Examples.pydantic Examples.bare_world None []
  = (Returned
       (Parser.Build_KISSConfig "results"
          (Config.Build_DataConfig true 100.0 0.0)
          (Config.Build_RegistrationConfig 500 0.0001 0)
          (Config.Build_MappingConfig (Some 1.0) 20)
          (Config.Build_AdaptiveThresholdConfig 2.0 0.1)),
     []).
Proof. vm_compute. reflexivity. Qed.

(** C4, at a concrete input: the defaults leave [voxel_size] unset and
    [max_range] at [100.0], so the theorem gives a returned [voxel_size] of
    [100.0 / 100.0]. *)
Lemma load_config_voxel_size_witness :
  let c := Parser.Build_KISSConfig "results"
             (Config.Build_DataConfig true 100.0 0.0)
             (Config.Build_RegistrationConfig 500 0.0001 0)
             (Config.Build_MappingConfig (Some 1.0) 20)
             (Config.Build_AdaptiveThresholdConfig 2.0 0.1) in
  Config.voxel_size (Parser.mapping c)
  = Some (Config.max_range (Parser.data c) / 100.0).
Proof.
  cbv zeta.
  destruct (@load_config_voxel_size Examples.pydantic Examples.bare_world None
              [] []
              (Parser.Build_KISSConfig "results"
                 (Config.Build_DataConfig true 100.0 0.0)
                 (Config.Build_RegistrationConfig 500 0.0001 0)
                 (Config.Build_MappingConfig (Some 1.0) 20)
                 (Config.Build_AdaptiveThresholdConfig 2.0 0.1))
              ltac:(vm_compute; reflexivity))
    as (c0 & out0 & Hc & Hnone & _).
  vm_compute in Hc. injection Hc as <- <-.
  apply Hnone. reflexivity.
Defined.

(** C10, counterexample to "always succeeds and returns the all-default
    configuration": where the constructor without keywords gives the
    all-default configuration, whose [voxel_size] is unset, [load_config]
    without a file returns a configuration whose [voxel_size] is [1.0], so
    not the all-default one; where the environment sets [kiss_icp_out_dir],
    the returned output directory is the environment's, not the default
    [results]; and where the settings class rejects the [kiss_icp_]
    variables of the environment, [load_config] without a file raises the
    validation error. *)
Lemma load_config_without_file_not_default :
  let c := Parser.Build_KISSConfig "results"
             (Config.Build_DataConfig true 100.0 0.0)
             (Config.Build_RegistrationConfig 500 0.0001 0)
             (Config.Build_MappingConfig (Some 1.0) 20)
             (Config.Build_AdaptiveThresholdConfig 2.0 0.1) in
  @Parser.KISSConfig_init Examples.pydantic (PyDict [])
  = Success (@Parser.KISSConfig_default Examples.pydantic) /\
  Config.voxel_size (Parser.mapping (@Parser.KISSConfig_default Examples.pydantic))
  = None /\
  @Parser.load_config Examples.pydantic Examples.bare_world None []
  = (Returned c, []) /\
  c <> @Parser.KISSConfig_default Examples.pydantic /\
  @Parser.load_config Examples.environment_with_out_dir Examples.bare_world
    None []
  = (Returned
       (Parser.Build_KISSConfig "elsewhere" (Parser.data c)
          (Parser.registration c) (Parser.mapping c)
          (Parser.adaptive_threshold c)),
     []) /\
  @Parser.load_config Examples.rejecting_environment Examples.bare_world None []
  = (Raised ValidationError, []).
Proof.
  cbv zeta.
  split; [vm_compute; reflexivity|]. split; [reflexivity|].
  split; [vm_compute; reflexivity|].
  split; [|split; vm_compute; reflexivity].
  intros H.
  apply (f_equal (fun c => Config.voxel_size (Parser.mapping c))) in H.
  vm_compute in H. discriminate H.
Qed.

End LoadConfigRuns.

(** ** The two configuration shapes *)

Section ConfigShapes.

Context {N : Native.Interface}.

Local Open Scope float_scope.

(** C3 (as amended).  For every nested configuration whose [voxel_size] is
    set - which [load_config] guarantees - [to_kiss_config] produces a
    native struct whose ten fields are the corresponding fields of the
    sub-configurations; and for every flat dataclass value [_to_cpp]
    produces a struct whose ten fields are the dataclass fields. *)
Theorem config_shapes_agree (fresh : Pybind._KISSConfig)
    (c : Parser.KISSConfig) (d : KissIcp.KISSConfig) (v : float) :
  Config.voxel_size (Parser.mapping c) = Some v ->
  (exists flat,
     Parser.to_kiss_config fresh c = Success flat /\
     Pybind.voxel_size flat = v /\
     Pybind.max_range flat = Config.max_range (Parser.data c) /\
     Pybind.min_range flat = Config.min_range (Parser.data c) /\
     Pybind.max_points_per_voxel flat
     = Config.max_points_per_voxel (Parser.mapping c) /\
     Pybind.min_motion_th flat
     = Config.min_motion_th (Parser.adaptive_threshold c) /\
     Pybind.initial_threshold flat
     = Config.initial_threshold (Parser.adaptive_threshold c) /\
     Pybind.max_num_iterations flat
     = Config.max_num_iterations (Parser.registration c) /\
     Pybind.convergence_criterion flat
     = Config.convergence_criterion (Parser.registration c) /\
     Pybind.max_num_threads flat
     = Config.max_num_threads (Parser.registration c) /\
     Pybind.deskew flat = Config.deskew (Parser.data c)) /\
  (let flat := KissIcp._to_cpp d in
   Pybind.voxel_size flat = KissIcp.voxel_size d /\
   Pybind.max_range flat = KissIcp.max_range d /\
   Pybind.min_range flat = KissIcp.min_range d /\
   Pybind.max_points_per_voxel flat = KissIcp.max_points_per_voxel d /\
   Pybind.min_motion_th flat = KissIcp.min_motion_th d /\
   Pybind.initial_threshold flat = KissIcp.initial_threshold d /\
   Pybind.max_num_iterations flat = KissIcp.max_num_iterations d /\
   Pybind.convergence_criterion flat = KissIcp.convergence_criterion d /\
   Pybind.max_num_threads flat = KissIcp.max_num_threads d /\
   Pybind.deskew flat = KissIcp.deskew d).
Proof.
  intros Hv. split.
  - unfold Parser.to_kiss_config. rewrite Hv. simpl.
    eexists. split; [reflexivity|]. simpl. repeat split; reflexivity.
  - cbv zeta. unfold KissIcp._to_cpp. simpl. repeat split; reflexivity.
Qed.

(** An unset [voxel_size] cannot be stored in the native struct. *)
Lemma to_kiss_config_needs_voxel_size (fresh : Pybind._KISSConfig)
    (c : Parser.KISSConfig) :
  Config.voxel_size (Parser.mapping c) = None ->
  Parser.to_kiss_config fresh c = Failure TypeError.
Proof.
  intros Hv. unfold Parser.to_kiss_config. rewrite Hv. reflexivity.
Qed.

End ConfigShapes.

(** C3, counterexample to the claim for every nested configuration: the
    nested configuration with all defaults has no [voxel_size], and
    [to_kiss_config] raises instead of producing a struct. *)
Lemma to_kiss_config_default_raises :
  Config.voxel_size (Parser.mapping Examples.nested_default) = None /\
  Parser.to_kiss_config Examples.zero_struct Examples.nested_default
  = Failure TypeError /\
  ~ (exists flat,
       Parser.to_kiss_config Examples.zero_struct Examples.nested_default
       = Success flat).
Proof.
  split; [reflexivity|]. split; [reflexivity|].
  intros [flat H]. discriminate H.
Qed.

(** C3, at a concrete input: the configuration [load_config] returns from
    the defaults, and the dataclass defaults. *)
Lemma config_shapes_agree_witness :
  let c := Parser.Build_KISSConfig "results"
             (Config.Build_DataConfig true 100.0%float 0.0%float)
             (Config.Build_RegistrationConfig 500 0.0001%float 0)
             (Config.Build_MappingConfig (Some 1.0%float) 20)
             (Config.Build_AdaptiveThresholdConfig 2.0%float 0.1%float) in
  (exists flat,
     Parser.to_kiss_config Examples.zero_struct c = Success flat /\
     Pybind.voxel_size flat = 1.0%float) /\
  Pybind.max_range
    (@KissIcp._to_cpp (@Core.native Examples.components) KissIcp.KISSConfig_default)
  = 100.0%float.
Proof.
  cbv zeta.
  destruct (@config_shapes_agree (@Core.native Examples.components)
              Examples.zero_struct
              (Parser.Build_KISSConfig "results"
                 (Config.Build_DataConfig true 100.0%float 0.0%float)
                 (Config.Build_RegistrationConfig 500 0.0001%float 0)
                 (Config.Build_MappingConfig (Some 1.0%float) 20)
                 (Config.Build_AdaptiveThresholdConfig 2.0%float 0.1%float))
              KissIcp.KISSConfig_default 1.0%float eq_refl)
    as [(flat & Hflat & Hvoxel & _) (_ & Hmax & _)].
  split.
  - exists flat. split; [exact Hflat | exact Hvoxel].
  - exact Hmax.
Defined.

(** ** The pipeline's components *)

Section ComponentFacts.

Context {C : Core.Components}.

Lemma deskew_without_timestamps (cfg : Pybind._KISSConfig)
    (trajectory : list Matrix4d) (frame : Vector3dVector) :
  Core.deskew cfg trajectory [] frame = frame.
Proof.
  unfold Core.deskew. simpl. rewrite andb_false_r. reflexivity.
Qed.

Lemma deskew_empty_frame (cfg : Pybind._KISSConfig)
    (trajectory : list Matrix4d) (timestamps : list float) :
  Core.deskew cfg trajectory timestamps [] = [].
Proof.
  unfold Core.deskew.
  destruct (Pybind.deskew cfg && negb (Core.is_empty timestamps))%bool;
    [destruct (Core.last_two trajectory)|]; reflexivity.
Qed.

Lemma get_correspondences_sources (voxel_size : float) (m : Core.VoxelHashMap)
    (max_radius : float) (queries : list (Point3D * Point3D)) :
  incl (map fst (Core.get_correspondences voxel_size m max_radius queries))
       (map fst queries).
Proof.
  induction queries as [|[src q] rest IH]; simpl.
  - apply incl_refl.
  - destruct (Core.nearest voxel_size m max_radius q); simpl.
    + apply incl_cons; [left; reflexivity | apply incl_tl; exact IH].
    + apply incl_tl. exact IH.
Qed.

Lemma align_empty_source (rounds : nat) (voxel_size : float)
    (m : Core.VoxelHashMap) (max_radius criterion : float) (pose : Matrix4d) :
  Core.align rounds voxel_size m [] max_radius criterion pose [] = (pose, []).
Proof. destruct rounds; reflexivity. Qed.

(** Every matched keypoint is one of the source points. *)
Lemma align_matched_from_source (rounds : nat) (voxel_size : float)
    (m : Core.VoxelHashMap) (source : Vector3dVector)
    (max_radius criterion : float) :
  forall (pose : Matrix4d) (matched : Vector3dVector),
    incl matched source ->
    incl (snd (Core.align rounds voxel_size m source max_radius criterion
                 pose matched))
         source.
Proof.
  induction rounds as [|rounds IH]; intros pose matched Hm; simpl.
  - exact Hm.
  - pose proof (get_correspondences_sources voxel_size m max_radius
                  (map (fun p => (p, Core.transform pose p)) source)) as Hs.
    rewrite map_map in Hs. simpl in Hs. rewrite map_id in Hs.
    destruct (Core.get_correspondences voxel_size m max_radius
                (map (fun p => (p, Core.transform pose p)) source))
      as [|c0 cs].
    + simpl. apply incl_nil_l.
    + match goal with
      | |- context [if ?b then _ else _] => destruct b
      end.
      * exact Hs.
      * apply IH. exact Hs.
Qed.

Lemma remove_far_points_incl (origin : Point3D) (max_range : float)
    (m : Core.VoxelHashMap) :
  incl (Core.points (Core.remove_far_points origin max_range m)) (Core.points m).
Proof.
  unfold Core.points, Core.remove_far_points.
  induction m as [|[k cell] rest IH]; simpl.
  - apply incl_refl.
  - match goal with
    | |- context [if ?b then _ else _] => destruct b
    end; simpl.
    + apply incl_app; [apply incl_appl, incl_refl | apply incl_appr, IH].
    + apply incl_appr, IH.
Qed.

(** What the per-frame sequence computes. *)
Lemma core_register_cloud (st : Core.State) (raw_points : Vector3dVector)
    (timestamps : list float) :
  let config := Core.cfg st in
  let frame :=
    Core.range_filter config
      (Core.deskew config (Core.trajectory st) timestamps raw_points) in
  let source :=
    Core.voxel_down_sample frame
      (Core.source_resolution (Pybind.voxel_size config)) in
  let keypoints :=
    Core.voxel_down_sample frame
      (Core.keypoint_resolution (Pybind.voxel_size config)) in
  let aligned :=
    Core.align (Z.to_nat (Pybind.max_num_iterations config))
      (Pybind.voxel_size config) (Core.voxel_map st) source
      (Core.threshold (Core.adaptive st))
      (Pybind.convergence_criterion config)
      (Core.initial_guess (Core.trajectory st)) [] in
  Core.register_cloud st raw_points timestamps
  = (Core.Build_State config
       (Core.trajectory st ++ [fst aligned])%list
       (Core.map_update config keypoints (fst aligned) (Core.voxel_map st))
       (Core.threshold_update config (Core.adaptive st)
          (Core.previous_pose st) (fst aligned)),
     (frame, snd aligned)).
Proof.
  cbv zeta. unfold Core.register_cloud.
  destruct (Core.align _ _ _ _ _ _ _ _) as [new_pose matched]. reflexivity.
Qed.

Lemma core_register_nonempty (st : Core.State) (raw_points : Vector3dVector)
    (timestamps : list float) :
  raw_points <> [] ->
  Core.register_frame st raw_points timestamps
  = Core.register_cloud st raw_points timestamps.
Proof.
  destruct raw_points; [intros H; contradiction H|]; reflexivity.
Qed.

(** The first output is the deskewed and range-filtered input, whatever the
    input. *)
Lemma core_register_frame_output (st : Core.State)
    (raw_points : Vector3dVector) (timestamps : list float) :
  fst (snd (Core.register_frame st raw_points timestamps))
  = Core.range_filter (Core.cfg st)
      (Core.deskew (Core.cfg st) (Core.trajectory st) timestamps raw_points).
Proof.
  destruct raw_points as [|p rest].
  - rewrite deskew_empty_frame. reflexivity.
  - rewrite core_register_nonempty by discriminate.
    rewrite core_register_cloud. reflexivity.
Qed.

(** Every call appends one pose and keeps the configuration. *)
Lemma core_register_frame_trajectory (st : Core.State)
    (raw_points : Vector3dVector) (timestamps : list float) :
  Core.cfg (fst (Core.register_frame st raw_points timestamps)) = Core.cfg st /\
  exists pose,
    Core.trajectory (fst (Core.register_frame st raw_points timestamps))
    = (Core.trajectory st ++ [pose])%list.
Proof.
  destruct raw_points as [|p rest].
  - split; [reflexivity|]. eexists. reflexivity.
  - rewrite core_register_nonempty by discriminate.
    rewrite core_register_cloud. split; [reflexivity|].
    eexists. reflexivity.
Qed.

(** *** Insertion into the voxel map *)

Lemma cell_add_keeps (capacity : Z) (cell : Core.VoxelCell) (p q : Point3D) :
  In q cell -> In q (Core.cell_add capacity cell p).
Proof.
  unfold Core.cell_add. destruct (_ <? _)%Z; [|auto].
  intros H. apply in_or_app. left. exact H.
Qed.

Lemma cell_add_grows (capacity : Z) (cell : Core.VoxelCell) (p : Point3D) :
  (List.length cell <= List.length (Core.cell_add capacity cell p))%nat.
Proof.
  unfold Core.cell_add. destruct (_ <? _)%Z; [|lia].
  rewrite length_app. simpl. lia.
Qed.

Lemma insert_point_keeps (capacity : Z) (k : Core.VoxelKey) (p q : Point3D)
    (m : Core.VoxelHashMap) :
  In q (Core.points m) -> In q (Core.points (Core.insert_point capacity k p m)).
Proof.
  unfold Core.points. induction m as [|[k' cell] rest IH]; simpl.
  - intros [].
  - intros H. apply in_app_or in H.
    destruct (Core.key_eqb k k'); simpl; apply in_or_app.
    + destruct H as [H|H]; [left; apply cell_add_keeps; exact H | right; exact H].
    + destruct H as [H|H]; [left; exact H | right; apply IH; exact H].
Qed.

Lemma insert_point_cell_grows (capacity : Z) (k k0 : Core.VoxelKey)
    (p : Point3D) (m : Core.VoxelHashMap) :
  (List.length (Core.lookup_cell m k0)
   <= List.length (Core.lookup_cell (Core.insert_point capacity k p m) k0))%nat.
Proof.
  unfold Core.lookup_cell. induction m as [|[k' cell] rest IH]; simpl.
  - lia.
  - destruct (Core.key_eqb k k'); simpl.
    + destruct (Core.key_eqb k0 k'); [apply cell_add_grows | lia].
    + destruct (Core.key_eqb k0 k'); [lia | exact IH].
Qed.

(** A point is dropped by [insert_point] only when its cell is full. *)
Lemma insert_point_adds (capacity : Z) (k : Core.VoxelKey) (p : Point3D)
    (m : Core.VoxelHashMap) :
  (0 < capacity)%Z ->
  In p (Core.points (Core.insert_point capacity k p m)) \/
  (capacity <= Z.of_nat (List.length (Core.lookup_cell m k)))%Z.
Proof.
  intros Hcap. unfold Core.points, Core.lookup_cell.
  induction m as [|[k' cell] rest IH]; simpl.
  - left. unfold Core.cell_add. simpl.
    destruct (0 <? capacity)%Z eqn:E; [simpl; auto | apply Z.ltb_ge in E; lia].
  - destruct (Core.key_eqb k k'); simpl.
    + unfold Core.cell_add.
      destruct (Z.of_nat (List.length cell) <? capacity)%Z eqn:E.
      * left. apply in_or_app. left. apply in_or_app. right. left. reflexivity.
      * right. apply Z.ltb_ge in E. exact E.
    + destruct IH as [IH|IH]; [left; apply in_or_app; right; exact IH | right; exact IH].
Qed.

Lemma insert_keeps (voxel_size : float) (capacity : Z)
    (pts : Vector3dVector) (q : Point3D) :
  forall m : Core.VoxelHashMap,
    In q (Core.points m) ->
    In q (Core.points (Core.insert voxel_size capacity pts m)).
Proof.
  unfold Core.insert. induction pts as [|a rest IH]; intros m H; simpl.
  - exact H.
  - apply IH. apply insert_point_keeps. exact H.
Qed.

Lemma insert_cell_grows (voxel_size : float) (capacity : Z)
    (pts : Vector3dVector) (k0 : Core.VoxelKey) :
  forall m : Core.VoxelHashMap,
    (List.length (Core.lookup_cell m k0)
     <= List.length
          (Core.lookup_cell (Core.insert voxel_size capacity pts m) k0))%nat.
Proof.
  unfold Core.insert. induction pts as [|a rest IH]; intros m; simpl.
  - lia.
  - etransitivity; [|apply IH]. apply insert_point_cell_grows.
Qed.

(** A point is dropped by [insert] only when its cell is full. *)
Lemma insert_adds (voxel_size : float) (capacity : Z)
    (pts : Vector3dVector) (p : Point3D) :
  (0 < capacity)%Z ->
  forall m : Core.VoxelHashMap,
    In p pts ->
    In p (Core.points (Core.insert voxel_size capacity pts m)) \/
    (capacity
     <= Z.of_nat
          (List.length
             (Core.lookup_cell (Core.insert voxel_size capacity pts m)
                (Core.voxel_key voxel_size p))))%Z.
Proof.
  intros Hcap. induction pts as [|a rest IH]; intros m Hin.
  - destruct Hin.
  - destruct Hin as [->|Hin].
    + destruct (insert_point_adds capacity (Core.voxel_key voxel_size p) p m Hcap)
        as [H|H].
      * left. unfold Core.insert. simpl.
        apply (insert_keeps voxel_size capacity rest p). exact H.
      * right.
        pose proof (insert_cell_grows voxel_size capacity (p :: rest)
                      (Core.voxel_key voxel_size p) m) as Hg.
        lia.
    + unfold Core.insert. simpl. apply (IH _ Hin).
Qed.

(** The points that survive pruning are those of the cells that stay. *)
Lemma remove_far_points_points (origin : Point3D) (max_range : float)
    (m : Core.VoxelHashMap) (p : Point3D) :
  In p (Core.points (Core.remove_far_points origin max_range m)) <->
  exists key cell,
    In (key, cell) m /\ In p cell /\
    Core.cell_kept origin max_range cell = true.
Proof.
  unfold Core.points, Core.remove_far_points. rewrite in_flat_map. split.
  - intros [[key cell] [Hf Hp]]. apply filter_In in Hf.
    destruct Hf as [Hm Hk]. exists key, cell. auto.
  - intros (key & cell & Hm & Hp & Hk). exists (key, cell).
    split; [apply filter_In; auto | exact Hp].
Qed.

Lemma last_pose_appended (poses : list Matrix4d) (pose : Matrix4d) :
  last (poses ++ [pose]) Core.identity4 = pose.
Proof. apply last_last. Qed.

End ComponentFacts.

(** ** The wrapper over any native pipeline *)

Section Wrapper.

Context {N : Native.Interface}.

Local Open Scope float_scope.

(** The wrapper's [register_frame] is one native call on the points built
    from the converted array, with an empty list standing for absent
    timestamps; the first output is built from the native call's first
    result, the second from its second. *)
Lemma register_frame_native_call (k : KissIcp.KissICP) (frame : ndarray)
    (timestamps : option (list float)) :
  KissIcp.register_frame k frame timestamps
  = (let r := Native._register_frame (KissIcp._pipeline k)
                (Native._Vector3dVector (asarray_float64 frame))
                (match timestamps with Some ts => ts | None => [] end) in
     (KissIcp.Build_KissICP (KissIcp.config k) (fst r),
      (asarray_points (fst (snd r)), asarray_points (snd (snd r))))).
Proof.
  unfold KissIcp.register_frame, KissIcp._to_cpp_points. cbv zeta.
  destruct (Native._register_frame _ _ _) as [p' [f s]]. reflexivity.
Qed.

Lemma asarray_float64_idempotent (frame : ndarray) :
  asarray_float64 (asarray_float64 frame) = asarray_float64 frame.
Proof. destruct frame; reflexivity. Qed.

(** On the non-negative integers of 63 bits the conversion is the
    kernel's correctly rounded conversion. *)
Lemma float_of_Z_of_uint63 (n : PrimInt63.int) :
  float_of_Z (Uint63Axioms.to_Z n) = of_uint63 n.
Proof.
  unfold float_of_Z. rewrite <- of_uint63_spec. apply SF2Prim_Prim2SF.
Qed.

Lemma binary_round_opp (m : positive) (e : Z) :
  binary_round prec emax true m e = SFopp (binary_round prec emax false m e).
Proof.
  unfold binary_round.
  destruct (shl_align m e _) as [mz ez].
  unfold binary_round_aux.
  destruct (shr_fexp prec emax (Zpos mz) ez loc_Exact) as [mrs' e'].
  destruct (shr_fexp prec emax _ e' loc_Exact) as [mrs'' e''].
  destruct (shr_m mrs''); try reflexivity.
  destruct (e'' <=? emax - prec)%Z; reflexivity.
Qed.

(** A negative integer converts to the opposite of its absolute value's
    conversion. *)
Lemma float_of_Z_opp (n : PrimInt63.int) :
  (0 < Uint63Axioms.to_Z n)%Z ->
  float_of_Z (- Uint63Axioms.to_Z n) = - of_uint63 n.
Proof.
  intros H. unfold float_of_Z.
  destruct (Uint63Axioms.to_Z n) as [|p|p] eqn:E; try lia.
  simpl Z.opp. unfold binary_normalize.
  rewrite binary_round_opp.
  change (binary_round prec emax false p 0)
    with (binary_normalize prec emax (Zpos p) 0 false).
  rewrite <- E. rewrite <- of_uint63_spec. rewrite <- FloatAxioms.opp_spec.
  apply SF2Prim_Prim2SF.
Qed.

(** C9.  Whatever the element type of the input array, the wrapper converts
    it to float64 before any native code sees it: the array handed to the
    native point-sequence constructor has dtype float64 and as many rows as
    the input, floating-point rows are carried over and integer rows are
    rounded to the nearest binary64 values (the kernel's correctly rounded
    conversion), and the native [_register_frame] and [_voxel_down_sample]
    are called on the points built from that array. *)
Theorem points_are_float64 (frame : ndarray) :
  let converted := asarray_float64 frame in
  dtype_of converted = Floating float64 /\
  (exists rows, converted = FloatArray float64 rows) /\
  rows_count converted = rows_count frame /\
  (forall d rows, asarray_float64 (FloatArray d rows) = FloatArray float64 rows) /\
  (forall d rows,
     asarray_float64 (IntArray d rows)
     = FloatArray float64
         (map (fun '(x, y, z) => (float_of_Z x, float_of_Z y, float_of_Z z))
              rows)) /\
  (forall n, float_of_Z (Uint63Axioms.to_Z n) = of_uint63 n) /\
  (forall n,
     (0 < Uint63Axioms.to_Z n)%Z ->
     float_of_Z (- Uint63Axioms.to_Z n) = - of_uint63 n) /\
  KissIcp._to_cpp_points frame = Native._Vector3dVector converted /\
  (forall k ts,
     KissIcp.register_frame k frame ts
     = (let r := Native._register_frame (KissIcp._pipeline k)
                   (Native._Vector3dVector converted)
                   (match ts with Some l => l | None => [] end) in
        (KissIcp.Build_KissICP (KissIcp.config k) (fst r),
         (asarray_points (fst (snd r)), asarray_points (snd (snd r)))))) /\
  (forall voxel_size,
     KissIcp.voxel_down_sample frame voxel_size
     = asarray_points
         (Native._voxel_down_sample (Native._Vector3dVector converted)
            voxel_size)).
Proof.
  cbv zeta.
  split; [destruct frame; reflexivity|].
  split; [destruct frame; eexists; reflexivity|].
  split; [destruct frame; simpl; [reflexivity | apply length_map]|].
  split; [reflexivity|].
  split; [reflexivity|].
  split; [apply float_of_Z_of_uint63|].
  split; [apply float_of_Z_opp|].
  split; [reflexivity|].
  split; [intros k ts; apply register_frame_native_call|].
  reflexivity.
Qed.

End Wrapper.

(** ** The wrapper over the specified pipeline *)

Section WrapperOverCore.

Context {C : Core.Components}.

#[local] Existing Instance Core.native.

(** A wrapper object whose native pipeline is the specified one. *)
Definition SpecifiedKissICP : Type := @KissIcp.KissICP (@Core.native C).

Definition pipeline_state (k : SpecifiedKissICP) : Core.State := KissIcp._pipeline k.

Lemma empty_array_points (frame : ndarray) :
  rows_count frame = 0%nat ->
  @KissIcp._to_cpp_points (@Core.native C) frame = [].
Proof.
  destruct frame as [d rows|d rows]; simpl; intros H;
    apply length_zero_iff_nil in H; subst rows; reflexivity.
Qed.

(** The wrapper's [register_frame] in terms of the pipeline's. *)
Lemma register_frame_over_core (k : SpecifiedKissICP) (frame : ndarray)
    (timestamps : option (list float)) :
  KissIcp.register_frame k frame timestamps
  = (let r := Core.register_frame (pipeline_state k)
                (@KissIcp._to_cpp_points (@Core.native C) frame)
                (match timestamps with Some ts => ts | None => [] end) in
     (@KissIcp.Build_KissICP (@Core.native C) (KissIcp.config k) (fst r),
      (asarray_points (fst (snd r)), asarray_points (snd (snd r))))).
Proof. exact (register_frame_native_call k frame timestamps). Qed.

(** C2.  With [timestamps] absent the wrapper passes the empty list to the
    native [_register_frame]; the deskewer is then the identity pass
    whatever the [deskew] flag of the configuration, and the first output is
    the range-filtered input frame. *)
Theorem register_frame_without_timestamps (k : SpecifiedKissICP) (frame : ndarray) :
  (forall (N : Native.Interface) (k' : @KissIcp.KissICP N),
     KissIcp.register_frame k' frame None
     = (let r := Native._register_frame (KissIcp._pipeline k')
                   (KissIcp._to_cpp_points frame) [] in
        (KissIcp.Build_KissICP (KissIcp.config k') (fst r),
         (asarray_points (fst (snd r)), asarray_points (snd (snd r)))))) /\
  (forall cfg trajectory points,
     Core.deskew cfg trajectory [] points = points) /\
  fst (snd (KissIcp.register_frame k frame None))
  = asarray_points
      (Core.range_filter (Core.cfg (pipeline_state k))
         (KissIcp._to_cpp_points frame)).
Proof.
  split; [intros N k'; exact (register_frame_native_call k' frame None)|].
  split; [intros; apply deskew_without_timestamps|].
  rewrite register_frame_over_core. cbv zeta. cbn [fst snd].
  rewrite core_register_frame_output.
  rewrite deskew_without_timestamps. reflexivity.
Qed.

(** C5.  A freshly built pipeline and a reset one report the identity pose
    and an empty map; a call of [register_frame] appends one pose and
    [last_pose] is that pose; in general [last_pose] is the last entry of a
    non-empty trajectory. *)
Theorem last_pose_and_local_map (k : SpecifiedKissICP) :
  (forall config,
     KissIcp.last_pose (@KissIcp.__init__ (@Core.native C) config)
     = Core.identity4 /\
     KissIcp.local_map (@KissIcp.__init__ (@Core.native C) config)
     = asarray_points []) /\
  KissIcp.last_pose (KissIcp.reset k) = Core.identity4 /\
  KissIcp.local_map (KissIcp.reset k) = asarray_points [] /\
  (forall frame timestamps,
     let k' := fst (KissIcp.register_frame k frame timestamps) in
     exists pose,
       Core.trajectory (pipeline_state k')
       = (Core.trajectory (pipeline_state k) ++ [pose])%list /\
       KissIcp.last_pose k' = pose) /\
  (forall poses pose,
     Core.trajectory (pipeline_state k) = (poses ++ [pose])%list ->
     KissIcp.last_pose k = pose).
Proof.
  split; [intros config; split; reflexivity|].
  split; [reflexivity|]. split; [reflexivity|]. split.
  - intros frame timestamps. cbv zeta.
    rewrite register_frame_over_core. cbv zeta. cbn [fst snd].
    destruct (core_register_frame_trajectory (pipeline_state k)
                (@KissIcp._to_cpp_points (@Core.native C) frame)
                (match timestamps with Some ts => ts | None => [] end))
      as [_ [pose Hpose]].
    exists pose. unfold pipeline_state at 1. cbn [KissIcp._pipeline].
    split; [exact Hpose|].
    unfold KissIcp.last_pose. cbn [KissIcp._pipeline].
    change (Core.last_pose
              (fst (Core.register_frame (pipeline_state k)
                      (@KissIcp._to_cpp_points (@Core.native C) frame)
                      (match timestamps with Some ts => ts | None => [] end)))
            = pose).
    unfold Core.last_pose. rewrite Hpose. apply last_pose_appended.
  - intros poses pose H. unfold KissIcp.last_pose. simpl.
    unfold Core.last_pose. unfold pipeline_state in H. rewrite H.
    apply last_pose_appended.
Qed.

(** Neither [register_frame] nor [reset] changes the wrapper's [config] or
    the configuration the pipeline was built with. *)
Lemma reachable_keeps_config (start k : SpecifiedKissICP) :
  KissIcp.reachable start k ->
  KissIcp.config k = KissIcp.config start /\
  Core.cfg (pipeline_state k) = Core.cfg (pipeline_state start).
Proof.
  induction 1 as [|k frame timestamps _ [IHc IHp]|k _ [IHc IHp]].
  - split; reflexivity.
  - rewrite register_frame_over_core. cbv zeta. cbn [fst snd].
    split; [exact IHc|].
    unfold pipeline_state at 1. cbn [KissIcp._pipeline].
    rewrite (proj1 (core_register_frame_trajectory _ _ _)). exact IHp.
  - split; [exact IHc | exact IHp].
Qed.

(** C6.  [reset] leaves the wrapper's [config] attribute as it was, for any
    native pipeline; on the specified pipeline it empties the trajectory and
    the map, returns the estimator to its initial value and keeps the
    pipeline's own configuration, so that resetting an object at any point
    of its life gives back the object as it was constructed. *)
Theorem reset_retains_config (k : SpecifiedKissICP) :
  (forall (N : Native.Interface) (k' : @KissIcp.KissICP N),
     KissIcp.config (KissIcp.reset k') = KissIcp.config k') /\
  KissIcp.config (KissIcp.reset k) = KissIcp.config k /\
  Core.cfg (pipeline_state (KissIcp.reset k)) = Core.cfg (pipeline_state k) /\
  Core.trajectory (pipeline_state (KissIcp.reset k)) = [] /\
  Core.voxel_map (pipeline_state (KissIcp.reset k)) = [] /\
  Core.adaptive (pipeline_state (KissIcp.reset k))
  = Core.threshold_initial (Core.cfg (pipeline_state k)) /\
  pipeline_state (KissIcp.reset k) = Core.initial (Core.cfg (pipeline_state k)) /\
  (forall config,
     KissIcp.reachable (@KissIcp.__init__ (@Core.native C) config) k ->
     KissIcp.reset k = @KissIcp.__init__ (@Core.native C) config).
Proof.
  repeat (split; [reflexivity|]).
  intros config Hreach.
  destruct (reachable_keeps_config _ _ Hreach) as [Hc Hp].
  unfold KissIcp.reset. simpl. unfold Core.reset.
  unfold pipeline_state in Hp. rewrite Hc, Hp. reflexivity.
Qed.

(** What a call does to the wrapper object and what it returns, in terms of
    the pipeline's transition. *)
Lemma register_frame_state (k : SpecifiedKissICP) (frame : ndarray)
    (timestamps : option (list float)) :
  let r := Core.register_frame (pipeline_state k)
             (@KissIcp._to_cpp_points (@Core.native C) frame)
             (match timestamps with Some ts => ts | None => [] end) in
  pipeline_state (fst (KissIcp.register_frame k frame timestamps)) = fst r /\
  snd (KissIcp.register_frame k frame timestamps)
  = (asarray_points (fst (snd r)), asarray_points (snd (snd r))) /\
  KissIcp.config (fst (KissIcp.register_frame k frame timestamps))
  = KissIcp.config k /\
  KissIcp.last_pose (fst (KissIcp.register_frame k frame timestamps))
  = Core.last_pose (fst r).
Proof.
  cbv zeta. rewrite register_frame_over_core. cbv zeta.
  split; [reflexivity|]. split; [reflexivity|]. split; reflexivity.
Qed.

Lemma threshold_update_phase (config : Pybind._KISSConfig)
    (a : Core.AdaptiveThresholdState) (prev pose : Matrix4d) :
  Core.current_phase (Core.threshold_update config a (Some prev) pose)
  = Core.WARM.
Proof.
  unfold Core.threshold_update. cbv zeta.
  destruct (_ <? _)%float; reflexivity.
Qed.

Local Open Scope float_scope.

(** C8 (as amended).  Every call of [register_frame] returns the pair
    (deskewed and range-filtered frame, matched keypoints) in that order,
    the keypoints being source points, keeps the configuration and appends
    exactly one pose, which is the new [last_pose].  On an empty cloud that
    pose is the previous one and neither the map nor the estimator changes.
    On any other cloud the map becomes the old one with the keypoints
    inserted at the new pose (every old point kept, every keypoint added
    unless its cell is full) and then pruned by range around the new
    position; the estimator is left as it is on the first frame and
    afterwards is WARM, with the motion folded into the running sum and the
    threshold recomputed exactly when the motion exceeds [min_motion_th]. *)
Theorem register_frame_effects (k : SpecifiedKissICP) (frame : ndarray)
    (timestamps : option (list float)) :
  let st := pipeline_state k in
  let config := Core.cfg st in
  let ts := match timestamps with Some l => l | None => [] end in
  let raw := KissIcp._to_cpp_points frame in
  let filtered :=
    Core.range_filter config (Core.deskew config (Core.trajectory st) ts raw) in
  let source :=
    Core.voxel_down_sample filtered
      (Core.source_resolution (Pybind.voxel_size config)) in
  let keypoints :=
    Core.voxel_down_sample filtered
      (Core.keypoint_resolution (Pybind.voxel_size config)) in
  let result := KissIcp.register_frame k frame timestamps in
  let st' := pipeline_state (fst result) in
  exists (pose : Matrix4d) (matched : Vector3dVector),
    snd result = (asarray_points filtered, asarray_points matched) /\
    incl matched source /\
    KissIcp.config (fst result) = KissIcp.config k /\
    Core.cfg st' = config /\
    Core.trajectory st' = (Core.trajectory st ++ [pose])%list /\
    List.length (Core.trajectory st') = S (List.length (Core.trajectory st)) /\
    KissIcp.last_pose (fst result) = pose /\
    (raw = [] ->
     pose = Core.last_pose st /\ matched = [] /\
     Core.voxel_map st' = Core.voxel_map st /\
     Core.adaptive st' = Core.adaptive st) /\
    (raw <> [] ->
     let moved := map (Core.transform pose) keypoints in
     let inserted :=
       Core.insert (Pybind.voxel_size config)
         (Pybind.max_points_per_voxel config) moved (Core.voxel_map st) in
     (source = [] -> pose = Core.initial_guess (Core.trajectory st)) /\
     Core.voxel_map st'
     = Core.remove_far_points (Core.translation pose)
         (Pybind.max_range config) inserted /\
     incl (Core.local_map st) (Core.points inserted) /\
     ((0 < Pybind.max_points_per_voxel config)%Z ->
      forall p, In p moved ->
        In p (Core.points inserted) \/
        (Pybind.max_points_per_voxel config
         <= Z.of_nat
              (List.length
                 (Core.lookup_cell inserted
                    (Core.voxel_key (Pybind.voxel_size config) p))))%Z) /\
     (forall p,
        In p (Core.local_map st') <->
        exists key cell,
          In (key, cell) inserted /\ In p cell /\
          Core.cell_kept (Core.translation pose) (Pybind.max_range config)
            cell = true) /\
     (Core.previous_pose st = None -> Core.adaptive st' = Core.adaptive st) /\
     (forall prev,
        Core.previous_pose st = Some prev ->
        let motion := Core.motion_magnitude prev pose in
        let before := Core.adaptive st in
        let after := Core.adaptive st' in
        Core.current_phase after = Core.WARM /\
        ((Pybind.min_motion_th config <? motion) = true ->
         Core.num_samples after = (Core.num_samples before + 1)%Z /\
         Core.sum_of_squares after
         = Core.sum_of_squares before + motion * motion /\
         Core.threshold after
         = 3 * sqrt (Core.sum_of_squares after
                     / float_of_Z (Core.num_samples after))) /\
        ((Pybind.min_motion_th config <? motion) = false ->
         Core.num_samples after = Core.num_samples before /\
         Core.sum_of_squares after = Core.sum_of_squares before /\
         Core.threshold after = Core.threshold before))).
Proof.
  cbv zeta.
  destruct (register_frame_state k frame timestamps)
    as (Hst & Hout & Hcfg & Hlast).
  cbv zeta in Hst, Hout, Hlast.
  rewrite Hlast, Hst, Hout, Hcfg. clear Hst Hout Hcfg Hlast.
  generalize (@KissIcp._to_cpp_points (@Core.native C) frame) as raw.
  generalize (match timestamps with Some l => l | None => [] end) as ts.
  generalize (pipeline_state k) as st.
  intros st ts raw. destruct raw as [|p rest].
  - exists (Core.last_pose st), []. rewrite deskew_empty_frame.
    cbn [Core.register_frame fst snd Core.cfg Core.trajectory Core.voxel_map
         Core.adaptive Core.range_filter filter].
    split; [reflexivity|]. split; [apply incl_nil_l|].
    split; [reflexivity|]. split; [reflexivity|]. split; [reflexivity|].
    split; [rewrite length_app; simpl; lia|].
    split; [unfold Core.last_pose at 1; cbn [Core.trajectory];
            apply last_pose_appended|].
    split; [intros _; repeat split; reflexivity|].
    intros H. contradiction H. reflexivity.
  - rewrite core_register_nonempty by discriminate.
    rewrite core_register_cloud. cbv zeta.
    set (config := Core.cfg st).
    set (filtered :=
           Core.range_filter config
             (Core.deskew config (Core.trajectory st) ts (p :: rest))).
    set (source := Core.voxel_down_sample filtered _).
    set (keypoints := Core.voxel_down_sample filtered _).
    set (aligned := Core.align _ _ _ source _ _ _ _).
    exists (fst aligned), (snd aligned).
    cbn [fst snd Core.cfg Core.trajectory Core.voxel_map Core.adaptive].
    split; [reflexivity|].
    split; [apply align_matched_from_source, incl_nil_l|].
    split; [reflexivity|]. split; [reflexivity|]. split; [reflexivity|].
    split; [rewrite length_app; simpl; lia|].
    split; [unfold Core.last_pose; cbn [Core.trajectory];
            apply last_pose_appended|].
    split; [discriminate|].
    intros _.
    split.
    { intros Hs. unfold aligned. rewrite Hs. rewrite align_empty_source.
      reflexivity. }
    split; [reflexivity|].
    split; [intros q Hq; apply insert_keeps; exact Hq|].
    split; [intros Hcap q Hq; apply insert_adds; assumption|].
    split; [intros q; apply remove_far_points_points|].
    split; [intros Hp; rewrite Hp; reflexivity|].
    intros prev Hp. rewrite Hp.
    split; [apply threshold_update_phase|].
    unfold Core.threshold_update. cbv zeta.
    split; intros Hm; rewrite Hm; cbn; repeat split; reflexivity.
Qed.

(** C7.  On an input array without rows, whatever its element type,
    [register_frame] returns two empty arrays and leaves [last_pose] and
    [local_map] as they were: no point enters or leaves the map, and the
    estimator is not touched. *)
Theorem register_empty_frame (k : SpecifiedKissICP) (frame : ndarray)
    (timestamps : option (list float)) :
  rows_count frame = 0%nat ->
  let result := KissIcp.register_frame k frame timestamps in
  let k' := fst result in
  snd result = (asarray_points [], asarray_points []) /\
  KissIcp.last_pose k' = KissIcp.last_pose k /\
  KissIcp.local_map k' = KissIcp.local_map k /\
  Core.voxel_map (pipeline_state k') = Core.voxel_map (pipeline_state k) /\
  Core.adaptive (pipeline_state k') = Core.adaptive (pipeline_state k).
Proof.
  intros Hrows. cbv zeta.
  rewrite register_frame_over_core. cbv zeta.
  rewrite (empty_array_points frame Hrows).
  cbn [Core.register_frame fst snd].
  split; [reflexivity|].
  split.
  - unfold KissIcp.last_pose. cbn [KissIcp._pipeline].
    change (Core.last_pose
              (Core.Build_State (Core.cfg (pipeline_state k))
                 (Core.trajectory (pipeline_state k)
                  ++ [Core.last_pose (pipeline_state k)])%list
                 (Core.voxel_map (pipeline_state k))
                 (Core.adaptive (pipeline_state k)))
            = Core.last_pose (pipeline_state k)).
    unfold Core.last_pose at 1. cbn [Core.trajectory].
    apply last_pose_appended.
  - split; [reflexivity|]. split; reflexivity.
Qed.

End WrapperOverCore.

(** ** Concrete runs of the pipeline *)

Section PipelineRuns.

Local Open Scope float_scope.

(** Downsampling keeps the first point of each voxel. *)
Lemma voxel_down_sample_run :
  Core.voxel_down_sample
    [(0.2, 0.2, 0.2); (0.7, 0.1, 0.3); (-0.5, 0.1, 0.3); (1.5, 0.2, 0.9)] 1.0
  = [(0.2, 0.2, 0.2); (-0.5, 0.1, 0.3); (1.5, 0.2, 0.9)].
Proof. vm_compute. reflexivity. Qed.

(** An int32 array is handed over as binary64 points. *)
Lemma to_cpp_points_run :
  @KissIcp._to_cpp_points (@Core.native Examples.components)
    (IntArray int32 [(1, -2, 3)%Z])
  = [(1, -2, 3)].
Proof. vm_compute. reflexivity. Qed.

(** C7, at a concrete input: the empty frame after two registered frames. *)
Lemma register_empty_frame_witness :
  let k := Examples.after_two_frames in
  let result := KissIcp.register_frame k Examples.empty_frame None in
  let k' := fst result in
  snd result = (asarray_points [], asarray_points []) /\
  KissIcp.last_pose k' = KissIcp.last_pose k /\
  KissIcp.local_map k' = KissIcp.local_map k /\
  Core.voxel_map (@pipeline_state Examples.components k')
  = Core.voxel_map (@pipeline_state Examples.components k) /\
  Core.adaptive (@pipeline_state Examples.components k')
  = Core.adaptive (@pipeline_state Examples.components k).
Proof.
  exact (@register_empty_frame Examples.components Examples.after_two_frames
           Examples.empty_frame None eq_refl).
Defined.

(** After a first frame with a point at [(1, 0, 0)] and a second frame that
    sees it at [(0.5, 0, 0)], the pose is a translation by [0.5] along x, and
    an empty frame leaves it there. *)
Lemma register_empty_frame_run :
  let k := Examples.after_two_frames in
  let k' := fst (KissIcp.register_frame k Examples.empty_frame None) in
  KissIcp.last_pose k = Examples.translate 0.5 0 0 /\
  KissIcp.last_pose k' = Examples.translate 0.5 0 0 /\
  List.length (Core.trajectory (@pipeline_state Examples.components k'))
  = 3%nat.
Proof. vm_compute. repeat split; reflexivity. Qed.

(** C8, counterexample to "every call updates the map and the estimator":
    on a freshly built pipeline an empty frame appends the identity pose and
    leaves the map and the estimator exactly as they were; a first frame
    with one point puts that point into the map and still leaves the
    estimator exactly as it was. *)
Lemma register_frame_without_update :
  let k0 := @KissIcp.__init__ (@Core.native Examples.components) None in
  let k1 := fst (KissIcp.register_frame k0 Examples.empty_frame None) in
  let k2 :=
    fst (KissIcp.register_frame k0 (FloatArray float64 [(1, 0, 0)]) None) in
  Core.trajectory (@pipeline_state Examples.components k1) = [Core.identity4] /\
  Core.voxel_map (@pipeline_state Examples.components k1)
  = Core.voxel_map (@pipeline_state Examples.components k0) /\
  KissIcp.local_map k1 = KissIcp.local_map k0 /\
  Core.adaptive (@pipeline_state Examples.components k1)
  = Core.adaptive (@pipeline_state Examples.components k0) /\
  KissIcp.local_map k2 = asarray_points [(1, 0, 0)] /\
  Core.adaptive (@pipeline_state Examples.components k2)
  = Core.adaptive (@pipeline_state Examples.components k0).
Proof. vm_compute. repeat split; reflexivity. Qed.

End PipelineRuns.

(** ** More on [_yaml_source] and [load_config] *)

Section LoadConfigOutcomes.

Context {P : Parser.Pydantic}.

Local Open Scope float_scope.

(** With PyYAML and a readable file, [construct] is the constructor applied
    to the parsed document, or to the empty mapping when the document is
    falsy. *)
Lemma construct_with_document (w : Parser.World) (path text : string)
    (y : Parser.YamlModule) (d : PyObj) (out : list string) :
  Parser.import_yaml w = Some y ->
  Parser.read_file w path = Some text ->
  Parser.safe_load y text = Success d ->
  Parser.construct w (Some path) out
  = lift (Parser.KISSConfig_init (py_or d (PyDict []))) out.
Proof.
  intros Hy Hr Hl.
  unfold Parser.construct, Parser._yaml_source, Parser.open_and_read.
  rewrite Hy, Hr. unfold bind, ret, lift. simpl. rewrite Hl. reflexivity.
Qed.

(** [load_config] looks at the world only through PyYAML and the one file
    it is given. *)
Lemma load_config_same_file (w1 w2 : Parser.World) (path : string)
    (out : list string) :
  Parser.import_yaml w1 = Parser.import_yaml w2 ->
  Parser.read_file w1 path = Parser.read_file w2 path ->
  Parser.load_config w1 (Some path) out = Parser.load_config w2 (Some path) out.
Proof.
  intros Hy Hr.
  unfold Parser.load_config, Parser._yaml_source, Parser.open_and_read.
  rewrite Hy, Hr. reflexivity.
Qed.

(** X1.  A configuration file whose document is falsy (an empty file, an
    empty mapping or list, zero, the empty string, false) is loaded exactly
    as no file at all. *)
Theorem load_config_falsy_document (w : Parser.World) (path text : string)
    (y : Parser.YamlModule) (d : PyObj) (out : list string) :
  Parser.import_yaml w = Some y ->
  Parser.read_file w path = Some text ->
  Parser.safe_load y text = Success d ->
  truthy d = false ->
  Parser.load_config w (Some path) out = Parser.load_config w None out.
Proof.
  intros Hy Hr Hl Hd.
  rewrite !load_config_after_construct.
  rewrite (construct_with_document w path text y d out Hy Hr Hl).
  unfold py_or. rewrite Hd. reflexivity.
Qed.

(** X2.  With PyYAML installed, a file that cannot be opened, a document
    the loader rejects and keyword arguments the validation rejects each
    make [load_config] raise that very exception, with nothing printed. *)
Theorem load_config_propagates_failures (w : Parser.World) (path : string)
    (y : Parser.YamlModule) (out : list string) :
  Parser.import_yaml w = Some y ->
  (Parser.read_file w path = None ->
   Parser.load_config w (Some path) out = (Raised OSError, out)) /\
  (forall text e,
     Parser.read_file w path = Some text ->
     Parser.safe_load y text = Failure e ->
     Parser.load_config w (Some path) out = (Raised e, out)) /\
  (forall text k v kv e,
     Parser.read_file w path = Some text ->
     Parser.safe_load y text = Success (PyDict ((k, v) :: kv)) ->
     Parser.validate ((k, v) :: kv) = Failure e ->
     Parser.load_config w (Some path) out = (Raised e, out)).
Proof.
  intros Hy. split; [|split].
  - intros Hr. rewrite load_config_after_construct.
    unfold Parser.construct, Parser._yaml_source, Parser.open_and_read.
    rewrite Hy, Hr. reflexivity.
  - intros text e Hr Hl. rewrite load_config_after_construct.
    unfold Parser.construct, Parser._yaml_source, Parser.open_and_read.
    rewrite Hy, Hr. unfold bind, ret, lift. simpl. rewrite Hl. reflexivity.
  - intros text k v kv e Hr Hl Hv. rewrite load_config_after_construct.
    rewrite (construct_with_document w path text y _ out Hy Hr Hl).
    unfold py_or. simpl. rewrite Hv. reflexivity.
Qed.

(** X3.  A document that is truthy but not a mapping (a non-empty list, a
    number, a string) cannot be unpacked as keyword arguments:
    [load_config] raises [TypeError] and prints nothing. *)
Theorem load_config_rejects_non_mapping (w : Parser.World) (path text : string)
    (y : Parser.YamlModule) (d : PyObj) (out : list string) :
  Parser.import_yaml w = Some y ->
  Parser.read_file w path = Some text ->
  Parser.safe_load y text = Success d ->
  truthy d = true ->
  Writer.is_mapping d = false ->
  Parser.load_config w (Some path) out = (Raised TypeError, out).
Proof.
  intros Hy Hr Hl Ht Hm. rewrite load_config_after_construct.
  rewrite (construct_with_document w path text y d out Hy Hr Hl).
  unfold py_or. rewrite Ht.
  destruct d; try discriminate Hm; reflexivity.
Qed.

(** How [construct] can end: it returns or raises with nothing printed, or
    exits with status 1 after the PyYAML message. *)
Lemma construct_outcomes (w : Parser.World) (cf : option string)
    (out : list string) :
  (exists c0, Parser.construct w cf out = (Returned c0, out)) \/
  Parser.construct w cf out
  = (Exited 1, (out ++ [Parser.yaml_missing_message])%list) \/
  (exists e, Parser.construct w cf out = (Raised e, out)).
Proof.
  unfold Parser.construct, Parser._yaml_source, Parser.open_and_read.
  destruct cf as [path|].
  - destruct (Parser.import_yaml w) as [y|].
    + destruct (Parser.read_file w path) as [text|].
      * unfold bind, ret, lift. simpl.
        destruct (Parser.safe_load y text) as [d|e]; simpl.
        -- destruct (Parser.KISSConfig_init (py_or d (PyDict []))) as [c0|e];
             simpl; [left | right; right]; eexists; reflexivity.
        -- right; right. eexists; reflexivity.
      * right; right. exists OSError. reflexivity.
    + right; left. reflexivity.
  - unfold bind, ret, lift. cbn beta iota.
    destruct (Parser.KISSConfig_init (py_or PyNone (PyDict []))) as [c0|e];
      [left | right; right]; eexists; reflexivity.
Qed.

(** X4.  Whatever the world and the file, [load_config] ends in one of four
    ways: it returns having printed nothing, it returns having printed only
    the min_range warning, it exits with status 1 having printed only the
    PyYAML message, or it raises having printed nothing.  Earlier output is
    never altered. *)
Theorem load_config_outcomes (w : Parser.World) (cf : option string)
    (out : list string) :
  (exists c, Parser.load_config w cf out = (Returned c, out)) \/
  (exists c,
     Parser.load_config w cf out
     = (Returned c, (out ++ [Parser.min_range_warning])%list)) \/
  Parser.load_config w cf out
  = (Exited 1, (out ++ [Parser.yaml_missing_message])%list) \/
  (exists e, Parser.load_config w cf out = (Raised e, out)).
Proof.
  rewrite load_config_after_construct.
  destruct (construct_outcomes w cf out) as [[c0 H]|[H|[e H]]]; rewrite H.
  - unfold Parser.warnings. destruct (Parser.max_below_min c0).
    + right; left. eexists; reflexivity.
    + left. rewrite app_nil_r. eexists; reflexivity.
  - right; right; left. reflexivity.
  - right; right; right. exists e. reflexivity.
Qed.

(** X5.  [load_config] changes nothing but [data.min_range] and
    [mapping.voxel_size]: the output directory, the registration and
    adaptive-threshold settings, [deskew], [max_range] and
    [max_points_per_voxel] of a returned configuration are those of the
    constructed one. *)
Theorem load_config_keeps_other_fields (w : Parser.World)
    (cf : option string) (out out' : list string) (c : Parser.KISSConfig) :
  Parser.load_config w cf out = (Returned c, out') ->
  exists c0 out0,
    Parser.construct w cf out = (Returned c0, out0) /\
    Parser.out_dir c = Parser.out_dir c0 /\
    Parser.registration c = Parser.registration c0 /\
    Parser.adaptive_threshold c = Parser.adaptive_threshold c0 /\
    Config.deskew (Parser.data c) = Config.deskew (Parser.data c0) /\
    Config.max_range (Parser.data c) = Config.max_range (Parser.data c0) /\
    Config.max_points_per_voxel (Parser.mapping c)
    = Config.max_points_per_voxel (Parser.mapping c0).
Proof.
  intros H. apply load_config_returned in H.
  destruct H as (c0 & out0 & Hc & -> & _).
  exists c0, out0. split; [exact Hc|].
  unfold Parser.adjust_voxel_size, Parser.adjust_min_range,
    Parser.set_data_min_range, Parser.set_mapping_voxel_size.
  destruct (Parser.max_below_min c0); cbn;
    destruct (Config.voxel_size (Parser.mapping c0)); cbn;
    repeat split; reflexivity.
Qed.

(** X6.  Every configuration returned by [load_config] is accepted by
    [to_kiss_config]: its [voxel_size] is set, so the conversion returns a
    struct, and that struct carries the returned [voxel_size], [max_range]
    and [min_range]. *)
Theorem load_config_then_to_kiss_config (w : Parser.World)
    (cf : option string) (out out' : list string) (c : Parser.KISSConfig)
    (fresh : Pybind._KISSConfig) :
  Parser.load_config w cf out = (Returned c, out') ->
  exists flat,
    Parser.to_kiss_config fresh c = Success flat /\
    Config.voxel_size (Parser.mapping c) = Some (Pybind.voxel_size flat) /\
    Pybind.max_range flat = Config.max_range (Parser.data c) /\
    Pybind.min_range flat = Config.min_range (Parser.data c).
Proof.
  intros H. apply load_config_returned in H.
  destruct H as (c0 & out0 & _ & -> & _).
  pose proof (adjust_voxel_size_value c0) as Hv.
  set (c := Parser.adjust_voxel_size (Parser.adjust_min_range c0)) in *.
  destruct (Config.voxel_size (Parser.mapping c)) as [v|] eqn:E.
  - unfold Parser.to_kiss_config. rewrite E. simpl.
    eexists. split; [reflexivity|]. simpl. repeat split; reflexivity.
  - destruct (Config.voxel_size (Parser.mapping c0)); discriminate Hv.
Qed.

End LoadConfigOutcomes.

(** ** More on the converters and the wrapper *)

Section ConvertersAndWrapper.

(** X7.  Both converters assign every field of the struct they build, so
    no content of the freshly constructed native struct reaches their
    result: [to_kiss_config] gives the same answer from any two fresh
    structs, and [_to_cpp] the same struct over any two bindings. *)
Theorem converters_ignore_fresh_struct (fresh1 fresh2 : Pybind._KISSConfig)
    (c : Parser.KISSConfig) (N1 N2 : Native.Interface)
    (d : KissIcp.KISSConfig) :
  Parser.to_kiss_config fresh1 c = Parser.to_kiss_config fresh2 c /\
  @KissIcp._to_cpp N1 d = @KissIcp._to_cpp N2 d.
Proof.
  split.
  - unfold Parser.to_kiss_config.
    destruct (Pybind.as_double (Config.voxel_size (Parser.mapping c)));
      reflexivity.
  - reflexivity.
Qed.

(** X8.  Over any native pipeline, no sequence of [register_frame] and
    [reset] calls changes the object's [config] attribute: it stays the
    configuration given to the constructor, or the dataclass defaults when
    none was given. *)
Theorem wrapper_config_never_changes {N : Native.Interface}
    (given : option KissIcp.KISSConfig) (k : KissIcp.KissICP) :
  KissIcp.reachable (KissIcp.__init__ given) k ->
  KissIcp.config k
  = match given with
    | Some c => c
    | None => KissIcp.KISSConfig_default
    end.
Proof.
  induction 1 as [|k frame timestamps _ IH|k _ IH].
  - reflexivity.
  - rewrite register_frame_native_call. exact IH.
  - exact IH.
Qed.

End ConvertersAndWrapper.

(** X8, at a concrete input: a frame registered and the pipeline reset,
    from an object built without a configuration. *)
Lemma wrapper_config_never_changes_witness :
  KissIcp.config
    (KissIcp.reset
       (fst (KissIcp.register_frame
               (@KissIcp.__init__ (@Core.native Examples.components) None)
               (IntArray int32 [(1, 0, 0)%Z]) None)))
  = KissIcp.KISSConfig_default.
Proof.
  exact (@wrapper_config_never_changes (@Core.native Examples.components)
           None _
           (KissIcp.reach_reset _ _
              (KissIcp.reach_register_frame _ _ (IntArray int32 [(1, 0, 0)%Z])
                 None (KissIcp.reach_start _)))).
Defined.

(** ** [write_config] *)

Section WriteConfig.

Context {P : Parser.Pydantic} {S : Writer.Serialisers} {F : Writer.Paths}.

(** Adjusting an adjusted configuration changes nothing. *)
Lemma adjust_idempotent (c0 : Parser.KISSConfig) :
  let c := Parser.adjust_voxel_size (Parser.adjust_min_range c0) in
  Parser.adjust_voxel_size (Parser.adjust_min_range c) = c.
Proof.
  cbv zeta.
  destruct c0 as [o [dk mx mn] r [vs cap] a].
  unfold Parser.adjust_voxel_size, Parser.adjust_min_range,
    Parser.max_below_min, Parser.set_data_min_range,
    Parser.set_mapping_voxel_size.
  cbn.
  destruct (PrimFloat.ltb mx mn) eqn:E1; cbn.
  - destruct vs as [v|]; cbn;
      destruct (PrimFloat.ltb mx 0) eqn:E2; cbn; rewrite ?E2; reflexivity.
  - destruct vs as [v|]; cbn; rewrite ?E1; cbn; reflexivity.
Qed.

(** X9.  [write_config] touches no file but the one it is given: whatever
    [load_config] made of a path that does not name that file before the
    call, it makes of it after the call, whether the writing succeeded or
    not.  Two different strings may name one file; what counts is the file
    they name. *)
Theorem write_config_keeps_other_files (can_write : string -> bool)
    (w : Parser.World) (config : option Parser.KISSConfig)
    (filename path : string) (out : list string) :
  Writer.same_file path filename = false ->
  Parser.load_config
    (snd (Writer.write_config can_write w config (Some filename)))
    (Some path) out
  = Parser.load_config w (Some path) out.
Proof.
  intros Hp. unfold Writer.write_config.
  destruct (can_write filename); [|reflexivity].
  apply load_config_same_file; simpl; [reflexivity|].
  rewrite Hp. reflexivity.
Qed.

(** X10.  Writing and loading back: with PyYAML installed, if the loader
    reads the dumped text back as the dumped dictionary and the validation
    rebuilds the configuration from that dictionary, then [load_config] on
    the file [write_config] wrote returns the configuration after the two
    adjustments - and returns it unchanged when it was itself a result of
    [load_config]. *)
Theorem write_config_then_load_config (can_write : string -> bool)
    (w : Parser.World) (c : Parser.KISSConfig) (filename : string)
    (y : Parser.YamlModule) (k : string) (v : PyObj)
    (kv : list (string * PyObj)) (out : list string) :
  can_write filename = true ->
  Parser.import_yaml w = Some y ->
  Writer.model_dump c = PyDict ((k, v) :: kv) ->
  Parser.safe_load y (Writer.yaml_dump y (Writer.model_dump c))
  = Success (Writer.model_dump c) ->
  Parser.validate ((k, v) :: kv) = Success c ->
  let written := Writer.write_config can_write w (Some c) (Some filename) in
  fst written = Returned tt /\
  Parser.load_config (snd written) (Some filename) out
  = (Returned (Parser.adjust_voxel_size (Parser.adjust_min_range c)),
     (out ++ Parser.warnings c)%list) /\
  (forall w0 cf0 out0 out1,
     Parser.load_config w0 cf0 out0 = (Returned c, out1) ->
     Parser.load_config (snd written) (Some filename) out
     = (Returned c, (out ++ Parser.warnings c)%list)).
Proof.
  intros Hw Hy Hd Hl Hv. cbv zeta.
  unfold Writer.write_config. rewrite Hw, Hy. simpl.
  assert (Hload :
    Parser.load_config
      (Writer.with_file w filename (Writer.yaml_dump y (Writer.model_dump c)))
      (Some filename) out
    = (Returned (Parser.adjust_voxel_size (Parser.adjust_min_range c)),
       (out ++ Parser.warnings c)%list)).
  { rewrite load_config_after_construct.
    rewrite (construct_with_document _ filename
               (Writer.yaml_dump y (Writer.model_dump c)) y
               (Writer.model_dump c) out).
    - rewrite Hd. unfold py_or. simpl. rewrite Hv. reflexivity.
    - exact Hy.
    - simpl. rewrite Writer.same_file_refl. reflexivity.
    - exact Hl. }
  split; [reflexivity|]. split; [exact Hload|].
  intros w0 cf0 out0 out1 H0. rewrite Hload.
  apply load_config_returned in H0.
  destruct H0 as (c0 & _ & _ & Hc & _).
  rewrite Hc. rewrite (adjust_idempotent c0). reflexivity.
Qed.

(** X11.  Without PyYAML [write_config] does not fail: it returns after
    writing the [str] of the dumped dictionary.  [load_config] cannot read
    that file back on the same installation: it prints the PyYAML message
    and exits with status 1. *)
Theorem write_config_without_yaml (can_write : string -> bool)
    (w : Parser.World) (config : Parser.KISSConfig) (filename : string)
    (out : list string) :
  can_write filename = true ->
  Parser.import_yaml w = None ->
  let written := Writer.write_config can_write w (Some config) (Some filename) in
  fst written = Returned tt /\
  Parser.read_file (snd written) filename
  = Some (Writer.py_str (Writer.model_dump config)) /\
  Parser.load_config (snd written) (Some filename) out
  = (Exited 1, (out ++ [Parser.yaml_missing_message])%list).
Proof.
  intros Hw Hy. cbv zeta. unfold Writer.write_config. rewrite Hw, Hy. simpl.
  split; [reflexivity|]. split.
  - rewrite Writer.same_file_refl. reflexivity.
  - rewrite load_config_after_construct.
    unfold Parser.construct, Parser._yaml_source. simpl. rewrite Hy.
    reflexivity.
Qed.

End WriteConfig.

(** ** Concrete runs of the further properties *)

Section FurtherRuns.

Local Open Scope float_scope.

(** X1, at a concrete input: an empty configuration file. *)
Lemma load_config_falsy_document_witness :
  @Parser.load_config Examples.pydantic
    (Examples.world_with "config.yaml" PyNone) (Some "config.yaml"%string) []
  = @Parser.load_config Examples.pydantic
      (Examples.world_with "config.yaml" PyNone) None [].
Proof.
  exact (@load_config_falsy_document Examples.pydantic
           (Examples.world_with "config.yaml" PyNone) "config.yaml" ""
           (Parser.Build_YamlModule (fun _ => Success PyNone)) PyNone []
           eq_refl eq_refl eq_refl eq_refl).
Defined.

(** X2, at a concrete input: a path that is not there. *)
Lemma load_config_propagates_failures_witness :
  @Parser.load_config Examples.pydantic
    (Examples.world_with "config.yaml" Examples.swapped_ranges)
    (Some "missing.yaml"%string) []
  = (Raised OSError, []).
Proof.
  exact (proj1
           (@load_config_propagates_failures Examples.pydantic
              (Examples.world_with "config.yaml" Examples.swapped_ranges)
              "missing.yaml"
              (Parser.Build_YamlModule
                 (fun _ => Success Examples.swapped_ranges))
              [] eq_refl)
           eq_refl).
Defined.

(** X3, at a concrete input: a file holding the list [[1]]. *)
Lemma load_config_rejects_non_mapping_witness :
  @Parser.load_config Examples.pydantic
    (Examples.world_with "config.yaml" (PyList [PyInt 1]))
    (Some "config.yaml"%string) []
  = (Raised TypeError, []).
Proof.
  exact (@load_config_rejects_non_mapping Examples.pydantic
           (Examples.world_with "config.yaml" (PyList [PyInt 1]))
           "config.yaml" ""
           (Parser.Build_YamlModule (fun _ => Success (PyList [PyInt 1])))
           (PyList [PyInt 1]) [] eq_refl eq_refl eq_refl eq_refl eq_refl).
Defined.

(** X5, at a concrete input: the file with swapped ranges; the constructed
    registration settings are the returned ones. *)
Lemma load_config_keeps_other_fields_witness :
  exists c0 out0,
    @Parser.construct Examples.pydantic
      (Examples.world_with "config.yaml" Examples.swapped_ranges)
      (Some "config.yaml"%string) [] = (Returned c0, out0) /\
    Parser.registration c0 = Config.Build_RegistrationConfig 500 0.0001 0.
Proof.
  destruct (@load_config_keeps_other_fields Examples.pydantic
              (Examples.world_with "config.yaml" Examples.swapped_ranges)
              (Some "config.yaml"%string) [] [Parser.min_range_warning]
              (Parser.Build_KISSConfig "results"
                 (Config.Build_DataConfig true 50.0 0.0)
                 (Config.Build_RegistrationConfig 500 0.0001 0)
                 (Config.Build_MappingConfig (Some 0.5) 20)
                 (Config.Build_AdaptiveThresholdConfig 2.0 0.1))
              ltac:(vm_compute; reflexivity))
    as (c0 & out0 & Hc & _ & Hr & _).
  exists c0, out0. split; [exact Hc|]. symmetry. exact Hr.
Defined.

(** X6, at a concrete input: the configuration loaded from the defaults. *)
Lemma load_config_then_to_kiss_config_witness :
  exists flat,
    Parser.to_kiss_config Examples.zero_struct WriterExamples.loaded_default
    = Success flat /\
    Some 1.0 = Some (Pybind.voxel_size flat).
Proof.
  destruct (@load_config_then_to_kiss_config Examples.pydantic
              Examples.bare_world None [] [] WriterExamples.loaded_default
              Examples.zero_struct ltac:(vm_compute; reflexivity))
    as (flat & Hf & Hv & _).
  exists flat. split; [exact Hf | exact Hv].
Defined.

(** X9, at a concrete input: writing [./kiss_icp.yaml] next to
    [config.yaml]. *)
Lemma write_config_keeps_other_files_witness :
  @Parser.load_config Examples.pydantic
    (snd (@Writer.write_config Examples.pydantic WriterExamples.serialisers
            WriterExamples.paths WriterExamples.anywhere
            (Examples.world_with "config.yaml" Examples.swapped_ranges)
            None (Some "./kiss_icp.yaml"%string)))
    (Some "config.yaml"%string) []
  = @Parser.load_config Examples.pydantic
      (Examples.world_with "config.yaml" Examples.swapped_ranges)
      (Some "config.yaml"%string) [].
Proof.
  apply (@write_config_keeps_other_files Examples.pydantic
           WriterExamples.serialisers WriterExamples.paths).
  reflexivity.
Defined.

(** Another string for the written file reads the written text: after
    writing [./kiss_icp.yaml], the path [kiss_icp.yaml] holds the dump. *)
Lemma write_config_reaches_alias :
  let written :=
    @Writer.write_config Examples.pydantic WriterExamples.serialisers
      WriterExamples.paths WriterExamples.anywhere WriterExamples.yaml_world
      (Some WriterExamples.loaded_default) (Some "./kiss_icp.yaml"%string) in
  "kiss_icp.yaml"%string <> "./kiss_icp.yaml"%string /\
  Parser.read_file WriterExamples.yaml_world "kiss_icp.yaml" = None /\
  Parser.read_file (snd written) "kiss_icp.yaml" = Some "yaml text"%string /\
  @Parser.load_config Examples.pydantic (snd written)
    (Some "kiss_icp.yaml"%string) []
  = (Returned WriterExamples.loaded_default, []).
Proof.
  cbv zeta. split; [discriminate|].
  split; [reflexivity|]. split; vm_compute; reflexivity.
Qed.

(** X10, at a concrete input: the configuration loaded from the defaults,
    written and loaded back. *)
Lemma write_config_then_load_config_witness :
  let written :=
    @Writer.write_config Examples.pydantic WriterExamples.serialisers
      WriterExamples.paths WriterExamples.anywhere WriterExamples.yaml_world
      (Some WriterExamples.loaded_default) (Some "kiss_icp.yaml"%string) in
  fst written = Returned tt /\
  @Parser.load_config Examples.pydantic (snd written)
    (Some "kiss_icp.yaml"%string) []
  = (Returned WriterExamples.loaded_default, []).
Proof.
  cbv zeta.
  destruct (@write_config_then_load_config Examples.pydantic
              WriterExamples.serialisers WriterExamples.paths
              WriterExamples.anywhere
              WriterExamples.yaml_world WriterExamples.loaded_default
              "kiss_icp.yaml" WriterExamples.yaml_module
              "data"
              (PyDict [("max_range"%string, PyFloat 100.0);
                       ("min_range"%string, PyFloat 0.0)])
              [("mapping"%string,
                PyDict [("voxel_size"%string, PyFloat 1.0)])]
              [] eq_refl eq_refl eq_refl eq_refl
              ltac:(vm_compute; reflexivity))
    as (Hw & _ & Hback).
  split; [exact Hw|].
  exact (Hback Examples.bare_world None [] []
           ltac:(vm_compute; reflexivity)).
Defined.

(** X11, at a concrete input: an installation without PyYAML. *)
Lemma write_config_without_yaml_witness :
  let written :=
    @Writer.write_config Examples.pydantic WriterExamples.serialisers
      WriterExamples.paths WriterExamples.anywhere Examples.bare_world
      (Some WriterExamples.loaded_default) (Some "kiss_icp.yaml"%string) in
  fst written = Returned tt /\
  Parser.read_file (snd written) "kiss_icp.yaml" = Some "dict text"%string /\
  @Parser.load_config Examples.pydantic (snd written)
    (Some "kiss_icp.yaml"%string) []
  = (Exited 1, [Parser.yaml_missing_message]).
Proof.
  exact (@write_config_without_yaml Examples.pydantic
           WriterExamples.serialisers WriterExamples.paths
           WriterExamples.anywhere
           Examples.bare_world WriterExamples.loaded_default "kiss_icp.yaml"
           [] eq_refl eq_refl).
Defined.

End FurtherRuns.
